(** * The model-deploy notebook of amazon-sagemaker-secure-mlops

    A shallow embedding of the code cells of
    [mlops-seed-code/model-deploy/sagemaker-model-deploy.ipynb]: the helper
    [get_environment], the resource-name templates, the model approval, the
    two waiting loops and the stack-set clean-up, with the properties of the
    notebook proved about them.

    Python dictionaries are finite maps from strings to values, a raised
    exception is the [Raise] case of [result], and the remote services are
    the fields of the record [world], which answer the SDK calls. *)

From stdpp Require Import base option list sorting strings gmap fin_maps.

Local Open Scope string_scope.
Local Open Scope list_scope.
Set Warnings "-register-all".

(** ** Python values *)

(** The objects that the SDK hands to the notebook: JSON-like data, plus
    [datetime] stamps.  A Rocq character stands for one Python character. *)
Inductive value : Type :=
  | VNone
  | VBool (b : bool)
  | VNum (n : Z)
  | VTime (t : Z)
  | VStr (s : string)
  | VList (l : list value)
  | VDict (d : gmap string value).

Abbreviation dict := (gmap string value).

(** The exceptions the cells can meet.  [ClientError] stands for whatever a
    client of the SDK throws, tagged with its error code. *)
Inductive exn : Type :=
  | KeyError (key : string)
  | IndexError
  | TypeError
  | AttributeError
  | AssertionError
  | Exception (message : string)
  | ClientError (code : string).

Inductive result (A : Type) : Type :=
  | Ok (a : A)
  | Raise (e : exn).
Arguments Ok {A} a.
Arguments Raise {A} e.

#[global] Instance result_ret : MRet result := λ A a, Ok a.
#[global] Instance result_bind : MBind result := λ A B f m,
  match m with
  | Ok a => f a
  | Raise e => Raise e
  end.

(** [try: body / except: handler], with a bare [except] that catches every
    exception. *)
Definition try_except {A} (body : result A) (handler : result A) : result A :=
  match body with
  | Ok a => Ok a
  | Raise _ => handler
  end.

(** [d[k]] on a dictionary. *)
Definition getitem (d : dict) (k : string) : result value :=
  match d !! k with
  | Some v => Ok v
  | None => Raise (KeyError k)
  end.

(** [del d[k]]. *)
Definition delitem (d : dict) (k : string) : result dict :=
  match d !! k with
  | Some _ => Ok (delete k d)
  | None => Raise (KeyError k)
  end.

(** [v[k]] with a string [k], on any object: only dictionaries accept it. *)
Definition subscript (v : value) (k : string) : result value :=
  match v with
  | VDict d => getitem d k
  | _ => Raise TypeError
  end.

(** [v.get(k)]: only dictionaries have the method; a missing key gives
    [None]. *)
Definition dict_get (v : value) (k : string) : result value :=
  match v with
  | VDict d => Ok (default VNone (d !! k))
  | _ => Raise AttributeError
  end.

(** [{**a, **b}]: the entries of [b] win. *)
Definition merge_dicts (a b : dict) : dict := b ∪ a.

(** [**v] inside a dictionary display needs a mapping. *)
Definition as_mapping (v : value) : result dict :=
  match v with
  | VDict d => Ok d
  | _ => Raise TypeError
  end.

(** Truth value of an object, as [if], [and] and [while] test it. *)
Definition truthy (v : value) : bool :=
  match v with
  | VNone => false
  | VBool b => b
  | VNum n => negb (n =? 0)%Z
  | VTime _ => true
  | VStr s => negb (String.eqb s EmptyString)
  | VList l => match l with [] => false | _ => true end
  | VDict d => negb (bool_decide (size d = 0))
  end.

(** [v == "literal"]: only the same string is equal to a string. *)
Definition eq_str (v : value) (lit : string) : bool :=
  match v with
  | VStr s => String.eqb s lit
  | _ => false
  end.

(** The dictionaries of the model have string keys; this is the key an
    object gives when it is used as one. *)
Definition as_key (v : value) : result string :=
  match v with
  | VStr s => Ok s
  | _ => Raise TypeError
  end.

(** [v in [lit1, lit2, ...]] for a list of string literals. *)
Definition in_strs (v : value) (lits : list string) : bool :=
  existsb (eq_str v) lits.

Fixpoint chars (s : string) : list value :=
  match s with
  | EmptyString => []
  | String c s' => VStr (String c EmptyString) :: chars s'
  end.

(** The elements a [for] loop, a comprehension or [list.extend] takes from
    an object.  A dictionary yields its keys; the order in which Python
    yields them (insertion order) is not recorded by the map. *)
Definition iterate (v : value) : result (list value) :=
  match v with
  | VList l => Ok l
  | VStr s => Ok (chars s)
  | VDict d => Ok (VStr <$> (map_to_list d).*1)
  | _ => Raise TypeError
  end.

(** [[x for x in l if keep x]], where evaluating [keep] may raise. *)
Fixpoint comprehension (keep : value → result bool) (l : list value)
    : result (list value) :=
  match l with
  | [] => Ok []
  | x :: l' =>
      b ← keep x;
      rest ← comprehension keep l';
      Ok (if b : bool then x :: rest else rest)
  end.

(** ** The world outside the notebook *)

(** What answers the notebook: the interpreter's [str()] on objects other
    than strings, the region of the session, and the operations of the SDK
    clients.  Every operation may raise.  The paginator gives the outcomes
    of fetching the successive pages, and [cp_get_pipeline_state name k] is
    the answer to the [k]-th poll of a waiting loop. *)
Record world : Type := {
  str_builtin : value → string;
  region_name : value;
  sm_describe_project : string → result dict;
  sm_describe_domain : value → result dict;
  sm_list_tags : value → result dict;
  ssm_get_parameter : string → result dict;
  sm_paginate_list_model_packages : string → string → string → list (result dict);
  sm_update_model_package : value → string → result dict;
  cp_get_pipeline_state : string → nat → result dict;
  cf_list_stack_instances : string → result dict;
  cf_delete_stack_instances : string → list value → list value → bool → result dict;
  cf_delete_stack_set : string → result dict;
}.

(** ** Effects of a cell *)

(** What a cell does that can be seen from outside: the lines it prints
    ([Output]) and the HTML it displays, its pauses, and the SDK calls that
    change a remote resource. *)
Inductive event : Type :=
  | Output (text : string)
  | Display (html : string)
  | Sleep (seconds : nat)
  | UpdateModelPackage (arn : value) (approval_status : string)
  | DeleteStackInstances (stack_set : string) (accounts regions : list value)
      (retain_stacks : bool)
  | DeleteStackSet (stack_set : string).

(** A cell yields the events it went through and either a value or the
    exception that stopped it. *)
Definition cell (A : Type) : Type := (list event * result A)%type.

#[global] Instance cell_ret : MRet cell := λ A a, ([], Ok a).
#[global] Instance cell_bind : MBind cell := λ A B f m,
  match m with
  | (es, Ok a) => let '(es', r) := f a in (es ++ es', r)
  | (es, Raise e) => (es, Raise e)
  end.

(** A computation without events, inside a cell. *)
Definition pure {A} (r : result A) : cell A := ([], r).

Definition emit (e : event) : cell unit := ([e], Ok tt).

(** An SDK call that is recorded: the event, then the answer. *)
Definition call {A} (e : event) (answer : result A) : cell A := ([e], answer).

Definition raise {A} (e : exn) : cell A := ([], Raise e).

Definition events {A} (c : cell A) : list event := c.1.
Definition outcome {A} (c : cell A) : result A := c.2.

(** ** Formatted strings *)

Inductive piece : Type :=
  | Lit (s : string)
  | Fmt (v : value).

Section Notebook.

Variable w : world.

(** [str(v)], which is what a replacement field of an f-string inserts. *)
Definition str (v : value) : string :=
  match v with
  | VStr s => s
  | _ => str_builtin w v
  end.

Definition render (p : piece) : string :=
  match p with
  | Lit s => s
  | Fmt v => str v
  end.

Fixpoint fstring (ps : list piece) : string :=
  match ps with
  | [] => EmptyString
  | p :: ps' => render p +:+ fstring ps'
  end.

(** ** get_environment *)

(** An entry of [ssm_params]: a dictionary with the two keys. *)
Record ssm_param : Type := {
  VariableName : string;
  ParameterName : string;
}.

(** The dictionary comprehension over the tags of the domain:
    [{t["Key"]: t["Value"] for t in tags if t["Key"] in [...]}].  A later
    tag with the same key replaces an earlier one. *)
Fixpoint tags_dict (tags : list value) (acc : dict) : result dict :=
  match tags with
  | [] => Ok acc
  | t :: tags' =>
      k ← subscript t "Key";
      if in_strs k ["EnvironmentName"; "EnvironmentType"] then
        k ← subscript t "Key" ≫= as_key;
        v ← subscript t "Value";
        tags_dict tags' (<[k := v]> acc)
      else tags_dict tags' acc
  end.

(** [sm.describe_domain(DomainId=sm.describe_project(...)["CreatedBy"]["DomainId"])]. *)
Definition project_domain (project_name : string) : result dict :=
  p ← sm_describe_project w project_name;
  created_by ← getitem p "CreatedBy";
  domain_id ← subscript created_by "DomainId";
  sm_describe_domain w domain_id.

(** The description of the domain with the three [del]s done and the
    default user settings flattened into it. *)
Definition flattened_domain (project_name : string) : result dict :=
  r ← project_domain project_name;
  r ← delitem r "ResponseMetadata";
  r ← delitem r "CreationTime";
  r ← delitem r "LastModifiedTime";
  settings ← getitem r "DefaultUserSettings" ≫= as_mapping;
  let r := merge_dicts r settings in
  delitem r "DefaultUserSettings".

(** The tags of the domain that the comprehension keeps. *)
Definition environment_tags (r : dict) : result dict :=
  arn ← getitem r "DomainArn";
  response ← sm_list_tags w arn;
  tags ← getitem response "Tags" ≫= iterate;
  tags_dict tags ∅.

(** The dictionary [i] as the loop over [ssm_params] finds it. *)
Definition domain_environment (project_name : string) : result dict :=
  r ← flattened_domain project_name;
  tags ← environment_tags r;
  Ok (merge_dicts r tags).

(** [ssm.get_parameter(Name=name)["Parameter"]["Value"]]. *)
Definition parameter_value (name : string) : result value :=
  response ← ssm_get_parameter w name;
  parameter ← getitem response "Parameter";
  subscript parameter "Value".

Definition parameter_path (environment_name environment_type : value)
    (parameter_name : string) : string :=
  fstring [Fmt environment_name; Lit "-"; Fmt environment_type; Lit "-";
           Fmt (VStr parameter_name)].

(** The right-hand side of the assignment in the [try] block. *)
Definition fetch_parameter (i : dict) (p : ssm_param) : result value :=
  environment_name ← getitem i "EnvironmentName";
  environment_type ← getitem i "EnvironmentType";
  parameter_value (parameter_path environment_name environment_type (ParameterName p)).

(** One turn of [for p in ssm_params]. *)
Definition load_parameter (i : dict) (p : ssm_param) : result dict :=
  try_except
    (v ← fetch_parameter i p; Ok (<[VariableName p := v]> i))
    (Ok (<[VariableName p := VStr EmptyString]> i)).

Fixpoint load_parameters (i : dict) (ssm_params : list ssm_param) : result dict :=
  match ssm_params with
  | [] => Ok i
  | p :: rest => i' ← load_parameter i p; load_parameters i' rest
  end.

Definition get_environment (project_name : string) (ssm_params : list ssm_param)
    : result dict :=
  i ← domain_environment project_name;
  load_parameters i ssm_params.

(** ** Resource names *)

Definition model_package_group_name (project_name : string) (project_id : value)
    : string :=
  fstring [Fmt (VStr project_name); Lit "-"; Fmt project_id].

Definition prefix (project_name : string) (project_id : value) : string :=
  fstring [Fmt (VStr project_name); Lit "-"; Fmt project_id].

Definition pipeline_name (prefix : string) : string :=
  fstring [Fmt (VStr prefix); Lit "-IrisPipeline"].

Definition code_pipeline_name (project_name : string) (project_id : value)
    : string :=
  fstring [Lit "sagemaker-"; Fmt (VStr project_name); Lit "-"; Fmt project_id;
           Lit "-modeldeploy"].

(** [assert(c)]. *)
Definition assert (c : bool) : cell unit :=
  if c then mret tt else raise AssertionError.

(** The names the session cell binds. *)
Record project_names : Type := {
  names_project_id : value;
  names_model_package_group_name : string;
  names_prefix : string;
}.

(** The end of the session cell, from [project_id = ...] on. *)
Definition name_project_resources (project_name : string) : cell project_names :=
  project_id ← pure (sm_describe_project w project_name ≫= λ p, getitem p "ProjectId");
  let group := model_package_group_name project_name project_id in
  _ ← emit (Output (fstring [Lit "Model package group name: "; Fmt (VStr group)]));
  _ ← assert (Nat.leb (String.length project_name) 15);
  let prefix := prefix project_name project_id in
  mret {| names_project_id := project_id;
          names_model_package_group_name := group;
          names_prefix := prefix |}.

(** ** Approval of the latest model package *)

(** [for p in pages: model_packages.extend(p["ModelPackageSummaryList"])],
    where fetching a page may raise. *)
Fixpoint extend_from_pages (pages : list (result dict)) (model_packages : list value)
    : result (list value) :=
  match pages with
  | [] => Ok model_packages
  | Raise e :: _ => Raise e
  | Ok p :: pages' =>
      summaries ← getitem p "ModelPackageSummaryList" ≫= iterate;
      extend_from_pages pages' (model_packages ++ summaries)
  end.

(** [l[0]]. *)
Definition first_item {A} (l : list A) : result A :=
  match l with
  | [] => Raise IndexError
  | x :: _ => Ok x
  end.

Definition no_model_package (group : string) : exn :=
  Exception (fstring [Lit "No model package is found for "; Fmt (VStr group);
                      Lit " model package group"]).

(** The list [model_packages] once the loop over the pages is done. *)
Definition listed_model_packages (group : string) : result (list value) :=
  extend_from_pages
    (sm_paginate_list_model_packages w group "CreationTime" "Descending") [].

(** The cell that lists all model packages and selects the latest one. *)
Definition select_latest_model_package (group : string) : cell value :=
  model_packages ← pure (listed_model_packages group);
  if Nat.eqb (length model_packages) 0 then raise (no_model_package group)
  else
    latest_model_package_arn ←
      pure (first_item model_packages ≫= λ mp, subscript mp "ModelPackageArn");
    _ ← emit (Output (str latest_model_package_arn));
    mret latest_model_package_arn.

(** The cell that sets the approval status. *)
Definition approve_model_package (latest_model_package_arn : value) : cell dict :=
  call (UpdateModelPackage latest_model_package_arn "Approved")
       (sm_update_model_package w latest_model_package_arn "Approved").

(** The two cells, run one after the other. *)
Definition model_approval (group : string) : cell dict :=
  latest_model_package_arn ← select_latest_model_package group;
  approve_model_package latest_model_package_arn.

(** ** Waiting for the deployment pipeline *)

(** [s["stageName"] == stage_name]. *)
Definition in_stage (stage_name : string) (s : value) : result bool :=
  n ← subscript s "stageName";
  Ok (eq_str n stage_name).

(** [a["actionName"] == action_name and a.get("latestExecution") and
    a.get("latestExecution")["status"] == status]. *)
Definition action_has_status (action_name status : string) (a : value)
    : result bool :=
  n ← subscript a "actionName";
  if eq_str n action_name then
    e ← dict_get a "latestExecution";
    if truthy e then
      e ← dict_get a "latestExecution";
      st ← subscript e "status";
      Ok (eq_str st status)
    else Ok false
  else Ok false.

(** The list whose length the [while] tests, from one pipeline state. *)
Definition matching_actions (stage_name action_name status : string) (state : dict)
    : result (list value) :=
  stages ← getitem state "stageStates" ≫= iterate;
  found ← comprehension (in_stage stage_name) stages;
  stage ← first_item found;
  actions ← subscript stage "actionStates" ≫= iterate;
  comprehension (action_has_status action_name status) actions.

(** The [while] loop.  [k] counts the polls made so far; [None] means that
    the loop is still running after [fuel] polls. *)
Fixpoint wait_until (stage_name action_name status code_pipeline_name : string)
    (fuel k : nat) : option (cell unit) :=
  match fuel with
  | 0 => None
  | S fuel' =>
      match cp_get_pipeline_state w code_pipeline_name k
              ≫= matching_actions stage_name action_name status with
      | Raise e => Some (raise e)
      | Ok found =>
          if Nat.eqb (length found) 0 then
            rest ← wait_until stage_name action_name status code_pipeline_name
                     fuel' (S k);
            Some (_ ← emit (Output "waiting..."); _ ← emit (Sleep 20); rest)
          else Some (mret tt)
      end
  end.

Definition quote : string := String (Ascii.ascii_of_nat 34) EmptyString.

Definition approval_link (code_pipeline_name : string) (region : value) : string :=
  fstring [Lit "<b>Please approve the manual step in <a target="; Lit quote;
           Lit "top"; Lit quote; Lit " href="; Lit quote;
           Lit "https://console.aws.amazon.com/codesuite/codepipeline/pipelines/";
           Fmt (VStr code_pipeline_name); Lit "/view?region="; Fmt region;
           Lit quote; Lit ">AWS CodePipeline</a></b>"].

(** The cell that waits for the manual approval stage. *)
Definition wait_for_staging (code_pipeline_name : string) (fuel : nat)
    : option (cell unit) :=
  loop ← wait_until "DeployModelStaging" "ApproveStagingDeployment" "InProgress"
            code_pipeline_name fuel 0;
  Some (_ ← emit (Output "waiting till the pipeline stops at the manual approval stage");
        _ ← loop;
        _ ← emit (Output "staging deployment completed.");
        emit (Display (approval_link code_pipeline_name (region_name w)))).

(** The cell that waits for the production deployment. *)
Definition wait_for_production (code_pipeline_name : string) (fuel : nat)
    : option (cell unit) :=
  loop ← wait_until "DeployModelProd" "DeployProd" "Succeeded"
            code_pipeline_name fuel 0;
  Some (_ ← emit (Output "waiting for production endpoint deployment");
        _ ← loop;
        emit (Output "production deployment completed.")).

(** ** Clean-up *)

(** [[a["Account"] for a in summaries]]. *)
Fixpoint account_ids (summaries : list value) : result (list value) :=
  match summaries with
  | [] => Ok []
  | a :: rest =>
      account ← subscript a "Account";
      accounts ← account_ids rest;
      Ok (account :: accounts)
  end.

(** [[a["Account"] for a in cf.list_stack_instances(StackSetName=ss)["Summaries"]]]. *)
Definition stack_instance_accounts (ss : string) : result (list value) :=
  r ← cf_list_stack_instances w ss;
  summaries ← getitem r "Summaries" ≫= iterate;
  account_ids summaries.

(** The body of the clean-up loop, for one stack set. *)
Definition delete_stack_set_and_instances (ss : string) : cell unit :=
  accounts ← pure (stack_instance_accounts ss);
  _ ← emit (Output (fstring [Lit "delete stack set instances for "; Fmt (VStr ss);
                            Lit " stack set for the accounts ";
                            Fmt (VList accounts)]));
  r ← call (DeleteStackInstances ss accounts [region_name w] false)
           (cf_delete_stack_instances w ss accounts [region_name w] false);
  _ ← emit (Output (str (VDict r)));
  _ ← emit (Sleep 180);
  _ ← emit (Output (fstring [Lit "delete stack set "; Fmt (VStr ss)]));
  _ ← call (DeleteStackSet ss) (cf_delete_stack_set w ss);
  mret tt.

(** [for x in l: body x]. *)
Fixpoint for_each {A} (l : list A) (body : A → cell unit) : cell unit :=
  match l with
  | [] => mret tt
  | x :: l' => _ ← body x; for_each l' body
  end.

Definition stack_set_name (project_name : string) (project_id env_type : value)
    : string :=
  fstring [Lit "sagemaker-"; Fmt (VStr project_name); Lit "-"; Fmt project_id;
           Lit "-deploy-"; Fmt env_type].

(** The clean-up cell. *)
Definition clean_up (project_name : string) (project_id : value) (env_data : dict)
    : cell unit :=
  staging ← pure (getitem env_data "EnvTypeStagingName");
  production ← pure (getitem env_data "EnvTypeProdName");
  for_each [stack_set_name project_name project_id staging;
            stack_set_name project_name project_id production]
           delete_stack_set_and_instances.

End Notebook.

(** * Further cells of the notebook *)

(** ** The environment cell *)

(** The variables that the notebook loads from the parameter store. *)
Definition ssm_parameters : list ssm_param :=
  [ {| VariableName := "DataBucketName"; ParameterName := "data-bucket-name" |};
    {| VariableName := "ModelBucketName"; ParameterName := "model-bucket-name" |};
    {| VariableName := "S3VPCEId"; ParameterName := "s3-vpce-id" |};
    {| VariableName := "S3KmsKeyId"; ParameterName := "kms-s3-key-arn" |};
    {| VariableName := "EbsKmsKeyArn"; ParameterName := "kms-ebs-key-arn" |};
    {| VariableName := "PipelineExecutionRole";
       ParameterName := "sm-pipeline-execution-role-arn" |};
    {| VariableName := "ModelExecutionRole";
       ParameterName := "sm-model-execution-role-name" |};
    {| VariableName := "StackSetExecutionRole";
       ParameterName := "stackset-execution-role-name" |};
    {| VariableName := "StackSetAdministrationRole";
       ParameterName := "stackset-administration-role-arn" |};
    {| VariableName := "StagingAccountList"; ParameterName := "staging-account-list" |};
    {| VariableName := "ProdAccountList"; ParameterName := "production-account-list" |};
    {| VariableName := "EnvTypeStagingName"; ParameterName := "env-type-staging-name" |};
    {| VariableName := "EnvTypeProdName"; ParameterName := "env-type-prod-name" |} ].

(** An object holds a [datetime] somewhere inside it; such an object is what
    [json.dumps] cannot serialize. *)
Fixpoint has_datetime (v : value) : bool :=
  match v with
  | VTime _ => true
  | VList l => existsb has_datetime l
  | VDict d => map_fold (λ _ v' b, has_datetime v' || b) false d
  | _ => false
  end.

Definition newline : string := String (Ascii.ascii_of_nat 10) EmptyString.

Section Environment.

Variable w : world.

(** The text that [json.dumps(v, indent=2)] gives for an object that it can
    serialize. *)
Variable json_text : value → string.

(** [json.dumps(v, indent=2)]. *)
Definition json_dumps (v : value) : result string :=
  if has_datetime v then Raise TypeError else Ok (json_text v).

(** The cell that loads and prints the environment. *)
Definition load_environment (project_name : string) : cell dict :=
  env_data ← pure (get_environment w project_name ssm_parameters);
  text ← pure (json_dumps (VDict env_data));
  _ ← emit (Output (fstring w [Lit "Environment data:"; Lit newline;
                               Fmt (VStr text)]));
  mret env_data.

End Environment.

(** ** Tags of the pipeline *)

Definition pipeline_tag (key : string) (v : value) : value :=
  VDict {[ "Key" := VStr key; "Value" := v ]}.

(** The list [Tags] that the pipeline cell passes to [sm.add_tags]. *)
Definition pipeline_tags (project_name : string) (project_id : value)
    (env_data : dict) : result (list value) :=
  environment_name ← getitem env_data "EnvironmentName";
  environment_type ← getitem env_data "EnvironmentType";
  Ok [pipeline_tag "sagemaker:project-name" (VStr project_name);
      pipeline_tag "sagemaker:project-id" project_id;
      pipeline_tag "EnvironmentName" environment_name;
      pipeline_tag "EnvironmentType" environment_type].

(** ** Network configuration *)

(** The object that [sagemaker.network.NetworkConfig] keeps. *)
Record NetworkConfig : Type := {
  enable_network_isolation : bool;
  security_group_ids : value;
  subnets : value;
  encrypt_inter_container_traffic : bool;
}.

(** The cell that sets up the network configuration. *)
Definition network_config (env_data : dict) : result NetworkConfig :=
  security_groups ← getitem env_data "SecurityGroups";
  subnet_ids ← getitem env_data "SubnetIds";
  Ok {| enable_network_isolation := false;
        security_group_ids := security_groups;
        subnets := subnet_ids;
        encrypt_inter_container_traffic := true |}.

(** The cell that builds the VPC configuration of the register step. *)
Definition vpc_config (network_config : NetworkConfig) : dict :=
  {[ "Subnets" := subnets network_config;
     "SecurityGroupIds" := security_group_ids network_config ]}.

(** * Vocabulary of the properties *)

(** ** Results *)

Definition is_ok {A} (r : result A) : Prop := ∃ a, r = Ok a.

(** ** get_environment *)

Definition removed_keys : list string :=
  ["ResponseMetadata"; "CreationTime"; "LastModifiedTime"; "DefaultUserSettings"].

(** What a turn of the loop stores for a parameter path. *)
Definition stored_value (w : world) (path : string) : value :=
  match parameter_value w path with
  | Ok v => v
  | Raise _ => VStr EmptyString
  end.

(** ** The model registry *)

(** A summary as [list_model_packages] gives it: the members the API
    requires, and whatever else the service adds. *)
Record model_package_summary : Type := {
  ModelPackageArn : string;
  CreationTime : Z;
  other_members : dict;
}.

Definition summary_value (mp : model_package_summary) : value :=
  VDict (<["ModelPackageArn" := VStr (ModelPackageArn mp)]>
         (<["CreationTime" := VTime (CreationTime mp)]> (other_members mp))).

(** The listing is in the order asked for: newest first. *)
Definition newest_first (mps : list model_package_summary) : Prop :=
  Sorted (λ a b, (CreationTime b ≤ CreationTime a)%Z) mps.

(** The approval statuses that the registry holds, by ARN, once it has
    served the [update_model_package] calls among the events. *)
Definition apply_update (statuses : gmap string string) (e : event)
    : gmap string string :=
  match e with
  | UpdateModelPackage (VStr arn) status => <[arn := status]> statuses
  | _ => statuses
  end.

Definition registry_after (es : list event) (statuses : gmap string string)
    : gmap string string :=
  foldl apply_update statuses es.

(** ** The state of the deployment pipeline *)

(** [v] is a dictionary whose member [key] is the string [name]. *)
Definition named (key name : string) (v : value) : bool :=
  match v with
  | VDict d => match d !! key with Some n => eq_str n name | None => false end
  | _ => false
  end.

(** In the pipeline state, the action [action_name] of the stage
    [stage_name] has a latest execution whose status is [status]. *)
Definition action_status_equals (stage_name action_name status : string)
    (state : dict) : Prop :=
  ∃ stages sd actions ad execution,
    state !! "stageStates" = Some (VList stages)
    ∧ List.find (named "stageName" stage_name) stages = Some (VDict sd)
    ∧ sd !! "actionStates" = Some (VList actions)
    ∧ VDict ad ∈ actions
    ∧ ad !! "actionName" = Some (VStr action_name)
    ∧ ad !! "latestExecution" = Some (VDict execution)
    ∧ execution !! "status" = Some (VStr status).

(** At the [k]-th poll the state is fetched and examined without an
    exception, and the status is, or is not, the awaited one. *)
Definition seen (w : world) (stage_name action_name status name : string)
    (k : nat) : Prop :=
  ∃ state, cp_get_pipeline_state w name k = Ok state
    ∧ is_ok (matching_actions stage_name action_name status state)
    ∧ action_status_equals stage_name action_name status state.

Definition not_seen (w : world) (stage_name action_name status name : string)
    (k : nat) : Prop :=
  ∃ state, cp_get_pipeline_state w name k = Ok state
    ∧ is_ok (matching_actions stage_name action_name status state)
    ∧ ¬ action_status_equals stage_name action_name status state.

(** An action state as the pipeline API shapes it: a dictionary with its
    name and, once the action has run, its latest execution with a status. *)
Definition well_formed_action (a : value) : Prop :=
  ∃ ad n, a = VDict ad
    ∧ ad !! "actionName" = Some (VStr n)
    ∧ ∀ e, ad !! "latestExecution" = Some e →
        ∃ execution st, e = VDict execution ∧ execution !! "status" = Some (VStr st).

Definition well_formed_stage (s : value) : Prop :=
  ∃ sd n actions, s = VDict sd
    ∧ sd !! "stageName" = Some (VStr n)
    ∧ sd !! "actionStates" = Some (VList actions)
    ∧ Forall well_formed_action actions.

(** A pipeline state made of such stages, one of them called [stage_name]. *)
Definition well_formed_state (stage_name : string) (state : dict) : Prop :=
  ∃ stages, state !! "stageStates" = Some (VList stages)
    ∧ Forall well_formed_stage stages
    ∧ ∃ s, s ∈ stages ∧ named "stageName" stage_name s = true.

(** What the loop prints and how long it sleeps in [n] turns. *)
Fixpoint waiting (n : nat) : list event :=
  match n with
  | 0 => []
  | S n' => Output "waiting..." :: Sleep 20 :: waiting n'
  end.

Definition staging_events (w : world) (name : string) (n : nat) : list event :=
  Output "waiting till the pipeline stops at the manual approval stage"
  :: waiting n
  ++ [Output "staging deployment completed.";
      Display (approval_link w name (region_name w))].

Definition production_events (n : nat) : list event :=
  Output "waiting for production endpoint deployment"
  :: waiting n ++ [Output "production deployment completed."].

(** ** Stack sets *)

(** The account has an instance of the stack set, by the listing of the
    service. *)
Definition has_instance (w : world) (ss : string) (account : value) : Prop :=
  ∃ r summaries a,
    cf_list_stack_instances w ss = Ok r
    ∧ r !! "Summaries" = Some (VList summaries)
    ∧ a ∈ summaries
    ∧ subscript a "Account" = Ok account.

(** The SDK calls among the events of a cell. *)
Definition is_call (e : event) : bool :=
  match e with
  | UpdateModelPackage _ _ | DeleteStackInstances _ _ _ _ | DeleteStackSet _ => true
  | Output _ | Display _ | Sleep _ => false
  end.

Definition calls (es : list event) : list event := List.filter is_call es.

(** The accounts that the clean-up passes for a stack set. *)
Definition listed_accounts (w : world) (ss : string) : list value :=
  match stack_instance_accounts w ss with
  | Ok accounts => accounts
  | Raise _ => []
  end.

(** The calls of a clean-up that nothing interrupts. *)
Definition clean_up_calls (w : world) (staging_set production_set : string)
    : list event :=
  [DeleteStackInstances staging_set (listed_accounts w staging_set)
     [region_name w] false;
   DeleteStackSet staging_set;
   DeleteStackInstances production_set (listed_accounts w production_set)
     [region_name w] false;
   DeleteStackSet production_set].

(** ** A small world to run the cells in *)

Definition tag (key : string) (v : value) : value :=
  VDict {[ "Key" := VStr key; "Value" := v ]}.

Definition parameter (v : string) : dict :=
  {[ "Parameter" := VDict {[ "Value" := VStr v ]} ]}.

Definition summary (arn : string) (created : Z) : value :=
  summary_value {| ModelPackageArn := arn; CreationTime := created;
                   other_members := ∅ |}.

Definition action (name : string) (status : option string) : value :=
  VDict (match status with
         | Some s => {[ "actionName" := VStr name;
                        "latestExecution" := VDict {[ "status" := VStr s ]} ]}
         | None => {[ "actionName" := VStr name ]}
         end).

Definition stage (name : string) (actions : list value) : value :=
  VDict {[ "stageName" := VStr name; "actionStates" := VList actions ]}.

Definition pipeline (approval deploy : option string) : dict :=
  {[ "stageStates" :=
       VList [stage "DeployModelStaging"
                [action "DeployStaging" (Some "Succeeded");
                 action "ApproveStagingDeployment" approval];
              stage "DeployModelProd" [action "DeployProd" deploy]] ]}.

(** One project in one domain, tagged [sm]/[dev]; a registry with two model
    packages, the newer one listed first; a pipeline that reaches the
    approval stage at the third poll and is deployed at the fifth. *)
Definition studio : world := {|
  str_builtin := λ _, "<object>";
  region_name := VStr "eu-west-1";
  sm_describe_project := λ _,
    Ok {[ "ProjectId" := VStr "p-1";
          "CreatedBy" := VDict {[ "DomainId" := VStr "d-1" ]} ]};
  sm_describe_domain := λ id,
    if eq_str id "d-1" then
      Ok {[ "ResponseMetadata" := VDict {[ "RetryAttempts" := VNum 0 ]};
            "CreationTime" := VTime 1;
            "LastModifiedTime" := VTime 2;
            "DomainArn" := VStr "arn:domain/d-1";
            "DefaultUserSettings" := VDict {[ "ExecutionRole" := VStr "arn:role" ]} ]}
    else Raise (ClientError "ResourceNotFound");
  sm_list_tags := λ _,
    Ok {[ "Tags" := VList [tag "EnvironmentName" (VStr "sm");
                           tag "owner" (VStr "ml-team");
                           tag "EnvironmentType" (VStr "dev")] ]};
  ssm_get_parameter := λ name,
    if String.eqb name "sm-dev-data-bucket-name" then Ok (parameter "dev-data")
    else if String.eqb name "sm-prod-data-bucket-name" then Ok (parameter "prod-data")
    else if String.eqb name "sm-dev-env-type-prod-name" then Ok (parameter "prod")
    else Raise (ClientError "ParameterNotFound");
  sm_paginate_list_model_packages := λ group _ _,
    if String.eqb group "iris-p-1" then
      [Ok {[ "ModelPackageSummaryList" := VList [summary "arn:model-package/2" 20] ]};
       Ok {[ "ModelPackageSummaryList" := VList [summary "arn:model-package/1" 10] ]}]
    else [Ok {[ "ModelPackageSummaryList" := VList [] ]}];
  sm_update_model_package := λ _ _, Ok ∅;
  cp_get_pipeline_state := λ _ k,
    Ok (if Nat.ltb k 2 then pipeline None None
        else if Nat.ltb k 4 then pipeline (Some "InProgress") None
        else pipeline (Some "Succeeded") (Some "Succeeded"));
  cf_list_stack_instances := λ _,
    Ok {[ "Summaries" := VList [VDict {[ "Account" := VStr "111111111111" ]};
                                VDict {[ "Account" := VStr "222222222222" ]}] ]};
  cf_delete_stack_instances := λ _ _ _ _, Ok ∅;
  cf_delete_stack_set := λ _, Ok ∅;
|}.

(** The environment types that the clean-up reads from [env_data]. *)
Definition studio_types : dict :=
  {[ "EnvTypeStagingName" := VStr "staging"; "EnvTypeProdName" := VStr "prod" ]}.

(** One entry of [ssm_params], and what the helpers give for it in [studio]. *)
Definition bucket_parameter : ssm_param :=
  {| VariableName := "DataBucketName"; ParameterName := "data-bucket-name" |}.

Definition studio_environment : dict :=
  match get_environment studio "iris" [bucket_parameter] with
  | Ok i => i
  | Raise _ => ∅
  end.

Definition studio_domain : dict :=
  match project_domain studio "iris" with
  | Ok r => r
  | Raise _ => ∅
  end.

Definition studio_flattened : dict :=
  match flattened_domain studio "iris" with
  | Ok r => r
  | Raise _ => ∅
  end.

(** ** Further vocabulary *)

(** The result is a value, not an exception. *)
Definition succeeds {A} (r : result A) : bool :=
  match r with
  | Ok _ => true
  | Raise _ => false
  end.

(** What a turn of the loop of [get_environment] stores for an entry when
    the dictionary is [i]. *)
Definition loaded (w : world) (i : dict) (p : ssm_param) : value :=
  match fetch_parameter w i p with
  | Ok v => v
  | Raise _ => VStr EmptyString
  end.

(** The entry is stored under neither of the two environment keys. *)
Definition plain_variable (p : ssm_param) : Prop :=
  VariableName p ≠ "EnvironmentName" ∧ VariableName p ≠ "EnvironmentType".

(** The dictionary with every entry stored as [value_of] says, in order. *)
Definition store_all (value_of : ssm_param → value) (i : dict)
    (ssm_params : list ssm_param) : dict :=
  foldl (λ j p, <[VariableName p := value_of p]> j) i ssm_params.

(** A page of [list_model_packages] with the given summaries. *)
Definition lists_summaries (page : dict) (summaries : list value) : Prop :=
  page !! "ModelPackageSummaryList" = Some (VList summaries).

(** A summary of a stack instance names the account. *)
Definition in_account (summary account : value) : Prop :=
  subscript summary "Account" = Ok account.

(** A world like [studio] whose domain has no tags. *)
Definition untagged : world := {|
  str_builtin := str_builtin studio;
  region_name := region_name studio;
  sm_describe_project := sm_describe_project studio;
  sm_describe_domain := sm_describe_domain studio;
  sm_list_tags := λ _, Ok {[ "Tags" := VList [] ]};
  ssm_get_parameter := ssm_get_parameter studio;
  sm_paginate_list_model_packages := sm_paginate_list_model_packages studio;
  sm_update_model_package := sm_update_model_package studio;
  cp_get_pipeline_state := cp_get_pipeline_state studio;
  cf_list_stack_instances := λ _, Ok {[ "Summaries" := VList [] ]};
  cf_delete_stack_instances := λ _ _ _ _, Raise (ClientError "ValidationError");
  cf_delete_stack_set := cf_delete_stack_set studio;
|}.

(** A world like [studio] whose deployment failed before the approval, and
    whose pipeline has lost its production stage. *)
Definition stalled : world := {|
  str_builtin := str_builtin studio;
  region_name := region_name studio;
  sm_describe_project := sm_describe_project studio;
  sm_describe_domain := λ _,
    Ok {[ "ResponseMetadata" := VDict ∅; "CreationTime" := VTime 1 ]};
  sm_list_tags := sm_list_tags studio;
  ssm_get_parameter := ssm_get_parameter studio;
  sm_paginate_list_model_packages := λ _ _ _,
    [Ok {[ "ModelPackageSummaryList" := VList [] ]};
     Ok {[ "ModelPackageSummaryList" := VList [summary "arn:model-package/7" 70] ]};
     Ok {[ "ModelPackageSummaryList" :=
             VList [summary "arn:model-package/6" 60;
                    summary "arn:model-package/5" 50] ]}];
  sm_update_model_package := sm_update_model_package studio;
  cp_get_pipeline_state := λ _ _,
    Ok {[ "stageStates" :=
            VList [stage "DeployModelStaging"
                     [action "DeployStaging" (Some "Failed");
                      action "ApproveStagingDeployment" None]] ]};
  cf_list_stack_instances := cf_list_stack_instances studio;
  cf_delete_stack_instances := cf_delete_stack_instances studio;
  cf_delete_stack_set := cf_delete_stack_set studio;
|}.

(** A world like [studio] whose domain has its subnets and, in the default
    user settings, its security groups. *)
Definition networked : world := {|
  str_builtin := str_builtin studio;
  region_name := region_name studio;
  sm_describe_project := sm_describe_project studio;
  sm_describe_domain := λ _,
    Ok {[ "ResponseMetadata" := VDict ∅;
          "CreationTime" := VTime 1;
          "LastModifiedTime" := VTime 2;
          "DomainArn" := VStr "arn:domain/d-1";
          "SubnetIds" := VList [VStr "subnet-1"; VStr "subnet-2"];
          "DefaultUserSettings" :=
            VDict {[ "ExecutionRole" := VStr "arn:role";
                     "SecurityGroups" := VList [VStr "sg-1"] ]} ]};
  sm_list_tags := sm_list_tags studio;
  ssm_get_parameter := ssm_get_parameter studio;
  sm_paginate_list_model_packages := sm_paginate_list_model_packages studio;
  sm_update_model_package := sm_update_model_package studio;
  cp_get_pipeline_state := cp_get_pipeline_state studio;
  cf_list_stack_instances := cf_list_stack_instances studio;
  cf_delete_stack_instances := cf_delete_stack_instances studio;
  cf_delete_stack_set := λ _, Raise (ClientError "OperationInProgress");
|}.

Definition networked_domain : dict :=
  match project_domain networked "iris" with
  | Ok r => r
  | Raise _ => ∅
  end.

Definition networked_environment : dict :=
  match get_environment networked "iris" ssm_parameters with
  | Ok i => i
  | Raise _ => ∅
  end.

Definition model_bucket_parameter : ssm_param :=
  {| VariableName := "ModelBucketName"; ParameterName := "model-bucket-name" |}.

Definition vpce_parameter : ssm_param :=
  {| VariableName := "S3VPCEId"; ParameterName := "s3-vpce-id" |}.

(** A stage state with its name. *)
Definition has_stage_name (s : value) : Prop :=
  ∃ sd n, s = VDict sd ∧ sd !! "stageName" = Some n.

(** An object that [json.dumps] can serialize. *)
Definition serializable (v : value) : Prop := has_datetime v = false.

(** Every member of the dictionary can be serialized. *)
Definition serializable_members (d : dict) : Prop :=
  ∀ k v, d !! k = Some v → serializable v.

Definition untagged_domain : dict :=
  match domain_environment untagged "iris" with
  | Ok i => i
  | Raise _ => ∅
  end.

Definition stalled_domain : dict :=
  match project_domain stalled "iris" with
  | Ok r => r
  | Raise _ => ∅
  end.

(** The description of the domain after the three [del]s. *)
Definition without_deleted (r0 : dict) : dict :=
  delete "LastModifiedTime" (delete "CreationTime" (delete "ResponseMetadata" r0)).

(** * Properties *)

(** ** The cells at work in the small world *)

Example get_environment_studio :
  get_environment studio "iris" [bucket_parameter]
    = Ok {[ "DomainArn" := VStr "arn:domain/d-1";
            "ExecutionRole" := VStr "arn:role";
            "EnvironmentName" := VStr "sm";
            "EnvironmentType" := VStr "dev";
            "DataBucketName" := VStr "dev-data" ]}.
Proof. vm_compute. reflexivity. Qed.

Example name_project_resources_studio :
  name_project_resources studio "iris"
    = ([Output "Model package group name: iris-p-1"],
       Ok {| names_project_id := VStr "p-1";
             names_model_package_group_name := "iris-p-1";
             names_prefix := "iris-p-1" |}).
Proof. reflexivity. Qed.

Example select_latest_model_package_empty :
  select_latest_model_package studio "other-p-2"
    = ([], Raise (Exception "No model package is found for other-p-2 model package group")).
Proof. reflexivity. Qed.

Example wait_for_staging_studio :
  wait_for_staging studio "sagemaker-iris-p-1-modeldeploy" 5
    = Some (staging_events studio "sagemaker-iris-p-1-modeldeploy" 2, Ok tt).
Proof. vm_compute. reflexivity. Qed.

Example wait_for_staging_out_of_fuel :
  wait_for_staging studio "sagemaker-iris-p-1-modeldeploy" 2 = None.
Proof. vm_compute. reflexivity. Qed.

Example wait_for_production_studio :
  wait_for_production studio "sagemaker-iris-p-1-modeldeploy" 9
    = Some (production_events 4, Ok tt).
Proof. vm_compute. reflexivity. Qed.

Example clean_up_studio :
  calls (events (clean_up studio "iris" (VStr "p-1") studio_types))
    = [DeleteStackInstances "sagemaker-iris-p-1-deploy-staging"
         [VStr "111111111111"; VStr "222222222222"] [VStr "eu-west-1"] false;
       DeleteStackSet "sagemaker-iris-p-1-deploy-staging";
       DeleteStackInstances "sagemaker-iris-p-1-deploy-prod"
         [VStr "111111111111"; VStr "222222222222"] [VStr "eu-west-1"] false;
       DeleteStackSet "sagemaker-iris-p-1-deploy-prod"].
Proof. vm_compute. reflexivity. Qed.

(** ** Lemmas on strings, values, results and cells *)

Lemma append_nil_r (s : string) : s +:+ EmptyString = s.
Proof.
  induction s as [|c s IH]; [reflexivity|].
  change (String c (s +:+ EmptyString) = String c s). by rewrite IH.
Qed.

Lemma append_assoc (s1 s2 s3 : string) : (s1 +:+ s2) +:+ s3 = s1 +:+ s2 +:+ s3.
Proof.
  induction s1 as [|c s1 IH]; [reflexivity|].
  change (String c ((s1 +:+ s2) +:+ s3) = String c (s1 +:+ s2 +:+ s3)).
  by rewrite IH.
Qed.

Lemma bind_Ok {A B} (m : result A) (f : A → result B) (b : B) :
  m ≫= f = Ok b → ∃ a, m = Ok a ∧ f a = Ok b.
Proof. destruct m as [a|e]; cbn; [eauto|done]. Qed.

(** Splits a successful sequence of two steps into its steps. *)
Tactic Notation "bind_inv" hyp(H) "as" ident(a) ident(Ha) :=
  apply bind_Ok in H as (a & Ha & H).

Lemma pure_bind {A B} (a : A) (f : A → cell B) : pure (Ok a) ≫= f = f a.
Proof. cbn. by destruct (f a). Qed.

Lemma cell_bind_run {A B} (m : cell A) (f : A → cell B) :
  match outcome m with
  | Ok a => events (m ≫= f) = events m ++ events (f a)
            ∧ outcome (m ≫= f) = outcome (f a)
  | Raise e => events (m ≫= f) = events m ∧ outcome (m ≫= f) = Raise e
  end.
Proof.
  destruct m as [es [a|e]]; cbn; [|done]. by destruct (f a).
Qed.

Lemma eq_str_true (v : value) (lit : string) :
  eq_str v lit = true ↔ v = VStr lit.
Proof.
  destruct v; cbn; try (split; [done|intros [=]]).
  rewrite String.eqb_eq. split; [by intros ->|by intros [= ->]].
Qed.

Lemma subscript_Ok (v : value) (k : string) (x : value) :
  subscript v k = Ok x ↔ ∃ d, v = VDict d ∧ d !! k = Some x.
Proof.
  destruct v; cbn; try (split; [done|by intros (? & [=] & _)]).
  unfold getitem. split.
  - destruct (d !! k) eqn:E; intros [= ->]. eauto.
  - intros (d' & [= <-] & ->). done.
Qed.

Lemma getitem_Ok (d : dict) (k : string) (x : value) :
  getitem d k = Ok x ↔ d !! k = Some x.
Proof. unfold getitem. destruct (d !! k); split; by intros [= ->]. Qed.

(** A subscript fails with a [KeyError] or a [TypeError] only. *)
Lemma subscript_Raise (v : value) (k : string) (e : exn) :
  subscript v k = Raise e → e = KeyError k ∨ e = TypeError.
Proof.
  destruct v; cbn; try (intros [= <-]; by right).
  unfold getitem. destruct (d !! k); [done|]. intros [= <-]. by left.
Qed.

Lemma fstring_cons (w : world) (p : piece) (ps : list piece) :
  fstring w (p :: ps) = render w p +:+ fstring w ps.
Proof. reflexivity. Qed.

Lemma fstring_nil (w : world) : fstring w [] = EmptyString.
Proof. reflexivity. Qed.

(** Unfolds a formatted string into the concatenation of its pieces. *)
Ltac fstring_simpl :=
  repeat rewrite fstring_cons; rewrite ?fstring_nil;
  cbv [render str]; rewrite ?append_nil_r.

(** ** Resource names *)

(** C6: the model package group name, the SageMaker pipeline name and the
    CodePipeline name are the project name and the project id joined by the
    fixed pieces of their templates.  This holds of the templates for every
    project name and project id, and of the names that the session cell
    makes: when the project is described with the id, the cell prints the
    group name so templated, whatever the project name, and for a name that
    passes the assertion it binds the id, the group name and the prefix so
    templated, from which the two pipeline names follow. *)
Theorem resource_names_are_templated (w : world) (project_name project_id : string) :
  (model_package_group_name w project_name (VStr project_id)
     = project_name +:+ "-" +:+ project_id
   ∧ pipeline_name w (prefix w project_name (VStr project_id))
     = project_name +:+ "-" +:+ project_id +:+ "-IrisPipeline"
   ∧ code_pipeline_name w project_name (VStr project_id)
     = "sagemaker-" +:+ project_name +:+ "-" +:+ project_id +:+ "-modeldeploy")
  ∧ (∀ p, sm_describe_project w project_name = Ok p →
       p !! "ProjectId" = Some (VStr project_id) →
       events (name_project_resources w project_name)
         = [Output ("Model package group name: "
                    +:+ project_name +:+ "-" +:+ project_id)]
       ∧ (Nat.leb (String.length project_name) 15 = true →
          ∃ names,
            outcome (name_project_resources w project_name) = Ok names
            ∧ names_project_id names = VStr project_id
            ∧ names_model_package_group_name names
              = project_name +:+ "-" +:+ project_id
            ∧ names_prefix names = project_name +:+ "-" +:+ project_id
            ∧ pipeline_name w (names_prefix names)
              = project_name +:+ "-" +:+ project_id +:+ "-IrisPipeline"
            ∧ code_pipeline_name w project_name (names_project_id names)
              = "sagemaker-" +:+ project_name +:+ "-" +:+ project_id
                +:+ "-modeldeploy")).
Proof.
  assert (model_package_group_name w project_name (VStr project_id)
          = project_name +:+ "-" +:+ project_id) as Hgroup.
  { unfold model_package_group_name. by fstring_simpl. }
  assert (prefix w project_name (VStr project_id)
          = project_name +:+ "-" +:+ project_id) as Hprefix.
  { unfold prefix. by fstring_simpl. }
  assert (pipeline_name w (project_name +:+ "-" +:+ project_id)
          = project_name +:+ "-" +:+ project_id +:+ "-IrisPipeline") as Hpipeline.
  { unfold pipeline_name. fstring_simpl. by rewrite !append_assoc. }
  assert (code_pipeline_name w project_name (VStr project_id)
          = "sagemaker-" +:+ project_name +:+ "-" +:+ project_id +:+ "-modeldeploy")
    as Hcode.
  { unfold code_pipeline_name. by fstring_simpl. }
  split; [by rewrite Hprefix|].
  intros p Hp Hid.
  assert (name_project_resources w project_name
          = (_ ← emit (Output ("Model package group name: "
                               +:+ project_name +:+ "-" +:+ project_id));
             _ ← assert (Nat.leb (String.length project_name) 15);
             mret {| names_project_id := VStr project_id;
                     names_model_package_group_name :=
                       project_name +:+ "-" +:+ project_id;
                     names_prefix := project_name +:+ "-" +:+ project_id |}))
    as ->.
  { unfold name_project_resources. rewrite Hp. cbn [mbind result_bind].
    unfold getitem. rewrite Hid, pure_bind, Hgroup, Hprefix. by fstring_simpl. }
  destruct (Nat.leb (String.length project_name) 15).
  - split; [reflexivity|]. intros _.
    exists {| names_project_id := VStr project_id;
              names_model_package_group_name := project_name +:+ "-" +:+ project_id;
              names_prefix := project_name +:+ "-" +:+ project_id |}.
    split; [reflexivity|]. cbv [names_project_id names_model_package_group_name
                                names_prefix].
    by rewrite Hpipeline, Hcode.
  - split; [reflexivity|]. discriminate.
Qed.

(** In [studio], the session cell makes the names of the project [iris]. *)
Lemma resource_names_are_templated_witness :
  events (name_project_resources studio "iris")
    = [Output ("Model package group name: " +:+ "iris" +:+ "-" +:+ "p-1")]
  ∧ ∃ names,
      outcome (name_project_resources studio "iris") = Ok names
      ∧ names_project_id names = VStr "p-1"
      ∧ names_model_package_group_name names = "iris" +:+ "-" +:+ "p-1"
      ∧ names_prefix names = "iris" +:+ "-" +:+ "p-1"
      ∧ pipeline_name studio (names_prefix names)
        = "iris" +:+ "-" +:+ "p-1" +:+ "-IrisPipeline"
      ∧ code_pipeline_name studio "iris" (names_project_id names)
        = "sagemaker-" +:+ "iris" +:+ "-" +:+ "p-1" +:+ "-modeldeploy".
Proof.
  destruct (proj2 (resource_names_are_templated studio "iris" "p-1")
              (default ∅ (match sm_describe_project studio "iris" with
                          | Ok p => Some p
                          | Raise _ => None
                          end)))
    as [Hevents Hnames]; [reflexivity|reflexivity|].
  split; [exact Hevents|]. apply Hnames. reflexivity.
Defined.

(** ** The assertion on the project name *)

(** C4, as the notebook has it: the project name is checked once, by the
    assertion on its length.  When the project is described with an id, the
    session cell ends normally for a name of at most 15 characters, binding
    the names templated from the unchanged project name, and with an
    [AssertionError] for a longer one. *)
Theorem project_name_length_is_asserted (w : world) (project_name : string)
    (p : dict) (project_id : value) :
  sm_describe_project w project_name = Ok p →
  p !! "ProjectId" = Some project_id →
  outcome (name_project_resources w project_name) =
    if Nat.leb (String.length project_name) 15 then
      Ok {| names_project_id := project_id;
            names_model_package_group_name :=
              model_package_group_name w project_name project_id;
            names_prefix := prefix w project_name project_id |}
    else Raise AssertionError.
Proof.
  intros Hp Hid. unfold name_project_resources, outcome.
  rewrite Hp. cbn. unfold getitem. rewrite Hid. cbn.
  by destruct (Nat.leb (String.length project_name) 15).
Qed.

(** In [studio], the name [iris] passes the assertion. *)
Lemma project_name_length_is_asserted_witness :
  outcome (name_project_resources studio "iris") =
    Ok {| names_project_id := VStr "p-1";
          names_model_package_group_name := "iris-p-1";
          names_prefix := "iris-p-1" |}.
Proof.
  exact (project_name_length_is_asserted studio "iris" _ (VStr "p-1")
           eq_refl eq_refl).
Defined.

(** C4, as stated, fails: a project name of 19 characters, in a world that
    describes the project, stops the session cell at the assertion. *)
Lemma long_project_name_is_rejected :
  String.length "iris-classification" = 19
  ∧ (∃ p, sm_describe_project studio "iris-classification" = Ok p
          ∧ p !! "ProjectId" = Some (VStr "p-1"))
  ∧ name_project_resources studio "iris-classification"
    = ([Output "Model package group name: iris-classification-p-1"],
       Raise AssertionError).
Proof.
  split; [reflexivity|]. split; [|reflexivity].
  eexists. split; reflexivity.
Qed.

(** ** Approval of the latest model package *)

Lemma summary_arn (mp : model_package_summary) :
  subscript (summary_value mp) "ModelPackageArn" = Ok (VStr (ModelPackageArn mp)).
Proof. unfold summary_value, subscript, getitem. by rewrite lookup_insert_eq. Qed.

(** The selection cell, from the list that the pages gave. *)
Lemma select_latest_run (w : world) (group : string) (model_packages : list value) :
  listed_model_packages w group = Ok model_packages →
  select_latest_model_package w group =
    match model_packages with
    | [] => ([], Raise (no_model_package w group))
    | mp :: _ =>
        match subscript mp "ModelPackageArn" with
        | Ok arn => ([Output (str w arn)], Ok arn)
        | Raise e => ([], Raise e)
        end
    end.
Proof.
  unfold select_latest_model_package. intros ->.
  destruct model_packages as [|mp rest]; [reflexivity|].
  cbn. by destruct (subscript mp "ModelPackageArn").
Qed.

Lemma select_latest_of_listing (w : world) (group : string)
    (mps : list model_package_summary) :
  listed_model_packages w group = Ok (summary_value <$> mps) →
  select_latest_model_package w group =
    match mps with
    | [] => ([], Raise (no_model_package w group))
    | mp :: _ => ([Output (ModelPackageArn mp)], Ok (VStr (ModelPackageArn mp)))
    end.
Proof.
  intros H. rewrite (select_latest_run _ _ _ H).
  destruct mps as [|mp rest]; [reflexivity|].
  cbn -[summary_value]. by rewrite summary_arn.
Qed.

(** C1: once the pages have been accumulated into the list of model
    packages, the selection cell raises the generic exception exactly when
    that list is empty; with a non-empty list, whose first summary has its
    ARN, it raises nothing, prints that ARN and yields it. *)
Theorem no_model_package_iff_empty_listing (w : world) (group : string)
    (model_packages : list value) :
  listed_model_packages w group = Ok model_packages →
  ((∃ message, outcome (select_latest_model_package w group)
                 = Raise (Exception message))
   ↔ model_packages = [])
  ∧ (model_packages = [] →
     outcome (select_latest_model_package w group) = Raise (no_model_package w group))
  ∧ (∀ mp rest arn,
       model_packages = mp :: rest →
       subscript mp "ModelPackageArn" = Ok arn →
       select_latest_model_package w group = ([Output (str w arn)], Ok arn)).
Proof.
  intros H. rewrite (select_latest_run _ _ _ H).
  destruct model_packages as [|mp rest].
  - split; [|split]; [|done|done]. split; [done|]. intros _. by eexists.
  - split; [|split]; [|done|].
    + split; [|done]. intros [message Hm].
      destruct (subscript mp "ModelPackageArn") as [arn|e] eqn:Hmp; [done|].
      injection Hm as ->. by apply subscript_Raise in Hmp as [?|?].
    + intros ??? [= <- <-] ->. done.
Qed.

(** In [studio], the group of the project lists two packages and the
    selection yields the first. *)
Lemma no_model_package_iff_empty_listing_witness :
  select_latest_model_package studio "iris-p-1"
    = ([Output "arn:model-package/2"], Ok (VStr "arn:model-package/2")).
Proof.
  refine (proj2 (proj2 (no_model_package_iff_empty_listing studio "iris-p-1"
    [summary "arn:model-package/2" 20; summary "arn:model-package/1" 10] _))
    _ _ (VStr "arn:model-package/2") eq_refl _);
    vm_compute; reflexivity.
Defined.

(** C7: with a non-empty listing, the two approval cells make one call of
    [update_model_package], for the first package of the listing and with
    the status [Approved]; when the listing is newest first no package is
    more recent than that one, and the status of every other package stays
    as it was. *)
Theorem latest_model_package_is_approved_once (w : world) (group : string)
    (mp : model_package_summary) (rest : list model_package_summary) :
  listed_model_packages w group = Ok (summary_value <$> mp :: rest) →
  newest_first (mp :: rest) →
  events (model_approval w group)
    = [Output (ModelPackageArn mp);
       UpdateModelPackage (VStr (ModelPackageArn mp)) "Approved"]
  ∧ (∀ mp', mp' ∈ rest → (CreationTime mp' ≤ CreationTime mp)%Z)
  ∧ (∀ statuses arn, arn ≠ ModelPackageArn mp →
     registry_after (events (model_approval w group)) statuses !! arn
       = statuses !! arn).
Proof.
  intros H Hsorted.
  assert (events (model_approval w group)
    = [Output (ModelPackageArn mp);
       UpdateModelPackage (VStr (ModelPackageArn mp)) "Approved"]) as Hev.
  { unfold model_approval. rewrite (select_latest_of_listing _ _ _ H). reflexivity. }
  split; [done|]. split.
  - apply Sorted_StronglySorted in Hsorted; [|intros x y z; lia].
    apply StronglySorted_inv in Hsorted as [_ Hall].
    intros mp' Hin. by eapply Forall_forall in Hall.
  - intros statuses arn Hne. rewrite Hev. cbn. by rewrite lookup_insert_ne.
Qed.

(** In [studio], the approval makes its one call, for the newer package. *)
Lemma latest_model_package_is_approved_once_witness :
  events (model_approval studio "iris-p-1")
    = [Output "arn:model-package/2";
       UpdateModelPackage (VStr "arn:model-package/2") "Approved"].
Proof.
  refine (proj1 (latest_model_package_is_approved_once studio "iris-p-1"
    {| ModelPackageArn := "arn:model-package/2"; CreationTime := 20;
       other_members := ∅ |}
    [ {| ModelPackageArn := "arn:model-package/1"; CreationTime := 10;
         other_members := ∅ |} ] _ _)).
  - vm_compute. reflexivity.
  - unfold newest_first. repeat constructor. cbn. lia.
Defined.

(** ** Waiting for the deployment pipeline *)

Lemma chars_no_dict (s : string) (d : dict) : VDict d ∉ chars s.
Proof.
  induction s as [|c s IH]; cbn; [apply not_elem_of_nil|].
  rewrite elem_of_cons. by intros [[=]|?].
Qed.

(** Only a list yields dictionaries when it is iterated. *)
Lemma iterate_dict_elem (v : value) (l : list value) (d : dict) :
  iterate v = Ok l → VDict d ∈ l → v = VList l.
Proof.
  destruct v; cbn; try done; intros [= <-] Hin.
  - by apply chars_no_dict in Hin.
  - done.
  - apply list_elem_of_fmap in Hin as (? & [=] & _).
Qed.

Lemma comprehension_elem (keep : value → result bool) (l r : list value) :
  comprehension keep l = Ok r →
  ∀ x, x ∈ r ↔ x ∈ l ∧ keep x = Ok true.
Proof.
  revert r. induction l as [|y l IH]; intros r H x; cbn in H.
  - injection H as <-. split; [by intros ?%not_elem_of_nil|by intros [?%not_elem_of_nil _]].
  - bind_inv H as b Hb. bind_inv H as r' Hr'. injection H as <-.
    specialize (IH _ Hr' x). destruct b.
    + rewrite !elem_of_cons, IH. split; [intros [->|[??]]; eauto|].
      intros [[->|?] ?]; eauto.
    + rewrite elem_of_cons, IH. split; [intros [??]; eauto|].
      intros [[->|?] ?]; [congruence|eauto].
Qed.

(** The first element that a comprehension keeps is the first one that
    passes its test. *)
Lemma comprehension_first (keep : value → result bool) (test : value → bool)
    (l r : list value) :
  (∀ x b, keep x = Ok b → b = test x) →
  comprehension keep l = Ok r →
  first_item r = match List.find test l with
                 | Some x => Ok x
                 | None => Raise IndexError
                 end.
Proof.
  intros Htest. revert r. induction l as [|y l IH]; intros r H; cbn in H.
  - by injection H as <-.
  - bind_inv H as b Hb. bind_inv H as r' Hr'. injection H as <-.
    cbn. rewrite <- (Htest _ _ Hb). destruct b; [done|by apply IH].
Qed.

Lemma in_stage_named (stage_name : string) (s : value) (b : bool) :
  in_stage stage_name s = Ok b → b = named "stageName" stage_name s.
Proof.
  unfold in_stage. intros H. bind_inv H as n Hn. injection H as <-.
  apply subscript_Ok in Hn as (d & -> & Hd). cbn. by rewrite Hd.
Qed.

Lemma action_has_status_true (action_name status : string) (a : value) :
  action_has_status action_name status a = Ok true ↔
  ∃ ad execution, a = VDict ad
    ∧ ad !! "actionName" = Some (VStr action_name)
    ∧ ad !! "latestExecution" = Some (VDict execution)
    ∧ execution !! "status" = Some (VStr status).
Proof.
  unfold action_has_status. split.
  - intros H. bind_inv H as n Hn. apply subscript_Ok in Hn as (ad & -> & Hname).
    destruct (eq_str n action_name) eqn:En; [|done].
    apply eq_str_true in En as ->. cbn in H.
    destruct (ad !! "latestExecution") as [e|] eqn:Ee; cbn in H; [|done].
    destruct (truthy e); [|done].
    bind_inv H as st Hst. injection H as H. apply eq_str_true in H as ->.
    apply subscript_Ok in Hst as (ex & -> & Hst). eauto 10.
  - intros (ad & ex & -> & Hname & He & Hst). cbn.
    unfold getitem. rewrite Hname. cbn.
    rewrite String.eqb_refl, He. cbn.
    rewrite bool_decide_eq_false_2; cbn.
    + unfold getitem. rewrite Hst. cbn. by rewrite String.eqb_refl.
    + intros Hz%map_size_empty_iff. by rewrite Hz in Hst.
Qed.

(** The list that the [while] measures is non-empty exactly when the named
    action of the named stage has the awaited status. *)
Lemma matching_actions_nonempty (stage_name action_name status : string)
    (state : dict) (found : list value) :
  matching_actions stage_name action_name status state = Ok found →
  found ≠ [] ↔ action_status_equals stage_name action_name status state.
Proof.
  unfold matching_actions. intros H.
  bind_inv H as stages Hstages. bind_inv Hstages as sv Hsv. apply getitem_Ok in Hsv.
  bind_inv H as kept Hkept. bind_inv H as stage Hstage.
  bind_inv H as actions Hactions. bind_inv Hactions as av Hav.
  apply subscript_Ok in Hav as (sd & -> & Hav).
  pose proof (comprehension_first _ _ _ _ (in_stage_named stage_name) Hkept) as Hfirst.
  rewrite Hstage in Hfirst.
  destruct (List.find (named "stageName" stage_name) stages) as [s|] eqn:Hfind; [|done].
  injection Hfirst as <-.
  assert (sv = VList stages) as ->.
  { eapply iterate_dict_elem; [done|].
    apply list_elem_of_In. eapply find_some, Hfind. }
  split.
  - intros Hne. destruct found as [|a found']; [done|].
    assert (a ∈ a :: found') as Hin by apply list_elem_of_here.
    apply (comprehension_elem _ _ _ H) in Hin as [Hin Ha].
    apply action_has_status_true in Ha as (ad & ex & -> & ? & ? & ?).
    assert (av = VList actions) as -> by (by eapply iterate_dict_elem).
    exists stages, sd, actions, ad, ex. done.
  - intros (stages' & sd' & actions' & ad & ex & Hs & Hf & Ha & Hin & ? & ? & ?).
    rewrite Hsv in Hs. injection Hs as <-.
    rewrite Hfind in Hf. injection Hf as <-.
    rewrite Hav in Ha. injection Ha as ->. injection Hactions as <-.
    intros ->.
    assert (VDict ad ∈ []) as Hnil; [|by apply not_elem_of_nil in Hnil].
    apply (comprehension_elem _ _ _ H). split; [done|].
    apply action_has_status_true. eauto 10.
Qed.

Lemma comprehension_ok (keep : value → result bool) (l : list value) :
  Forall (λ x, is_ok (keep x)) l → is_ok (comprehension keep l).
Proof.
  induction 1 as [|x l [b Hb] _ [r Hr]]; cbn; [by eexists|].
  rewrite Hb. cbn. rewrite Hr. cbn. by eexists.
Qed.

Lemma well_formed_action_ok (action_name status : string) (a : value) :
  well_formed_action a → is_ok (action_has_status action_name status a).
Proof.
  intros (ad & n & -> & Hn & He). unfold action_has_status. cbn.
  unfold getitem. rewrite Hn. cbn.
  destruct (n =? action_name)%string; [|by eexists].
  destruct (ad !! "latestExecution") as [e|] eqn:Ee; cbn; [|by eexists].
  destruct (He e eq_refl) as (ex & st & -> & Hst).
  destruct (truthy (VDict ex)); [|by eexists].
  cbn. unfold getitem. rewrite Hst. cbn. by eexists.
Qed.

(** Such a state is examined without an exception. *)
Lemma well_formed_state_ok (stage_name action_name status : string) (state : dict) :
  well_formed_state stage_name state →
  is_ok (matching_actions stage_name action_name status state).
Proof.
  intros (stages & Hstages & Hwf & s & Hs & Hnamed). unfold matching_actions, getitem.
  rewrite Hstages. cbn.
  destruct (comprehension_ok (in_stage stage_name) stages) as [kept Hkept].
  { eapply Forall_impl; [exact Hwf|]. intros x (sd & n & actions & -> & Hn & _).
    unfold in_stage. cbn. unfold getitem. rewrite Hn. cbn. by eexists. }
  rewrite Hkept. cbn.
  rewrite (comprehension_first _ _ _ _ (in_stage_named stage_name) Hkept).
  destruct (List.find (named "stageName" stage_name) stages) as [s'|] eqn:Hfind.
  - cbn. apply find_some in Hfind as [Hin _]. apply list_elem_of_In in Hin.
    rewrite Forall_forall in Hwf.
    destruct (Hwf _ Hin) as (sd & n & actions & -> & _ & Hactions & Hacts).
    cbn. unfold getitem. rewrite Hactions. cbn.
    apply comprehension_ok. eapply Forall_impl; [exact Hacts|].
    intros a. apply well_formed_action_ok.
  - apply list_elem_of_In in Hs.
    by rewrite (find_none _ _ Hfind _ Hs) in Hnamed.
Qed.

Section Polling.

Variable w : world.
Variables stage_name action_name status name : string.

(** The list measured at the [k]-th turn of the loop. *)
Let poll (k : nat) : result (list value) :=
  cp_get_pipeline_state w name k
    ≫= matching_actions stage_name action_name status.

Lemma seen_poll (k : nat) :
  seen w stage_name action_name status name k ↔
  ∃ found, poll k = Ok found ∧ found ≠ [].
Proof.
  unfold seen, poll. split.
  - intros (state & -> & [found Hfound] & Heq). exists found. split; [done|].
    by apply (matching_actions_nonempty _ _ _ _ _ Hfound).
  - intros (found & H & Hne). bind_inv H as state Hstate.
    exists state. split; [done|]. split; [by exists found|].
    by apply (matching_actions_nonempty _ _ _ _ _ H).
Qed.

Lemma not_seen_poll (k : nat) :
  not_seen w stage_name action_name status name k ↔ poll k = Ok [].
Proof.
  unfold not_seen, poll. split.
  - intros (state & -> & [found Hfound] & Hneq). cbn. rewrite Hfound.
    destruct found as [|a found]; [done|]. exfalso. apply Hneq.
    by apply (matching_actions_nonempty _ _ _ _ _ Hfound).
  - intros H. bind_inv H as state Hstate.
    exists state. split; [done|]. split; [by exists []|].
    by intros Heq%(matching_actions_nonempty _ _ _ _ _ H).
Qed.

(** The loop ends normally, after [n] turns, exactly when the [n]-th poll
    from its start is the first to see the status. *)
Lemma wait_until_exits (fuel k : nat) (es : list event) :
  wait_until w stage_name action_name status name fuel k = Some (es, Ok tt) ↔
  ∃ n, n < fuel ∧ es = waiting n
    ∧ seen w stage_name action_name status name (k + n)
    ∧ ∀ m, m < n → not_seen w stage_name action_name status name (k + m).
Proof.
  revert k es. induction fuel as [|fuel IH]; intros k es.
  { cbn. split; [done|]. intros (n & ? & _). lia. }
  cbn [wait_until]. fold (poll k).
  destruct (poll k) as [found|e] eqn:Hpoll.
  - destruct found as [|a found]; cbn [length Nat.eqb].
    + assert (wait_until w stage_name action_name status name fuel (S k)
              ≫= (λ rest, Some (_ ← emit (Output "waiting..."); _ ← emit (Sleep 20); rest))
              = Some (es, Ok tt)
              ↔ ∃ es', wait_until w stage_name action_name status name fuel (S k)
                        = Some (es', Ok tt)
                  ∧ es = Output "waiting..." :: Sleep 20 :: es') as ->.
      { destruct (wait_until _ _ _ _ _ fuel (S k)) as [[es' [[]|e]]|]; cbn.
        - split; [intros [= <-]; eauto|]. by intros (? & [= <-] & ->).
        - split; [done|]. by intros (? & [=] & _).
        - split; [done|]. by intros (? & [=] & _). }
      split.
      * intros (es' & (n & Hn & -> & Hseen & Hnot)%IH & ->).
        exists (S n). split; [lia|]. split; [done|].
        rewrite Nat.add_succ_r. split; [done|].
        intros [|m] Hm; [rewrite Nat.add_0_r; by apply not_seen_poll|].
        rewrite Nat.add_succ_r. apply Hnot. lia.
      * intros (n & Hn & -> & Hseen & Hnot). destruct n as [|n].
        { rewrite Nat.add_0_r in Hseen.
          apply seen_poll in Hseen as (found & Hfound & Hne). congruence. }
        exists (waiting n). split; [|done]. apply IH. exists n.
        split; [lia|]. split; [done|]. rewrite Nat.add_succ_r in Hseen.
        split; [done|]. intros m Hm. specialize (Hnot (S m)).
        rewrite Nat.add_succ_r in Hnot. apply Hnot. lia.
    + split.
      * intros [= <-]. exists 0. split; [lia|]. split; [done|].
        rewrite Nat.add_0_r. split; [|intros; lia].
        apply seen_poll. by exists (a :: found).
      * intros (n & Hn & -> & Hseen & Hnot). destruct n as [|n]; [done|].
        specialize (Hnot 0). rewrite Nat.add_0_r in Hnot.
        assert (poll k = Ok []) by (apply not_seen_poll, Hnot; lia). congruence.
  - split; [done|]. intros (n & Hn & -> & Hseen & Hnot). destruct n as [|n].
    + rewrite Nat.add_0_r in Hseen.
      apply seen_poll in Hseen as (found & Hfound & _). congruence.
    + specialize (Hnot 0). rewrite Nat.add_0_r in Hnot.
      assert (poll k = Ok []) by (apply not_seen_poll, Hnot; lia). congruence.
Qed.

End Polling.

(** For such states, a poll sees the status exactly when the state has it. *)
Lemma well_formed_state_seen (w : world) (stage_name action_name status name : string)
    (k : nat) (state : dict) :
  cp_get_pipeline_state w name k = Ok state →
  well_formed_state stage_name state →
  (seen w stage_name action_name status name k
     ↔ action_status_equals stage_name action_name status state)
  ∧ (not_seen w stage_name action_name status name k
     ↔ ¬ action_status_equals stage_name action_name status state).
Proof.
  intros Hstate Hwf.
  pose proof (well_formed_state_ok stage_name action_name status state Hwf) as Hok.
  unfold seen, not_seen. split; split.
  - intros (state' & Hstate' & _ & H). congruence.
  - intros H. by exists state.
  - intros (state' & Hstate' & _ & H). congruence.
  - intros H. by exists state.
Qed.

(** C3: each of the two waiting cells ends its loop normally exactly when a
    poll finds the awaited status ([InProgress] for the action
    [ApproveStagingDeployment], [Succeeded] for the action [DeployProd]) and
    no earlier poll of the loop did; the loop has then printed and slept 20
    seconds once for each earlier poll, and nothing else ends it so. *)
Theorem waiting_loops_exit_on_status (w : world) (name : string) (fuel : nat)
    (es : list event) :
  (wait_for_staging w name fuel = Some (es, Ok tt) ↔
   ∃ n, n < fuel ∧ es = staging_events w name n
     ∧ seen w "DeployModelStaging" "ApproveStagingDeployment" "InProgress" name n
     ∧ ∀ m, m < n →
         not_seen w "DeployModelStaging" "ApproveStagingDeployment" "InProgress" name m)
  ∧ (wait_for_production w name fuel = Some (es, Ok tt) ↔
     ∃ n, n < fuel ∧ es = production_events n
       ∧ seen w "DeployModelProd" "DeployProd" "Succeeded" name n
       ∧ ∀ m, m < n → not_seen w "DeployModelProd" "DeployProd" "Succeeded" name m).
Proof.
  split.
  - unfold wait_for_staging, staging_events.
    pose proof (wait_until_exits w "DeployModelStaging" "ApproveStagingDeployment"
                  "InProgress" name fuel 0) as Hloop.
    destruct (wait_until _ _ _ _ _ fuel 0) as [[es' [[]|e]]|]; cbn.
    + split.
      * intros [= <-]. destruct (proj1 (Hloop es') eq_refl) as (n & ? & -> & ? & ?).
        exists n. done.
      * intros (n & Hn & -> & Hseen & Hnot).
        assert (Some (es', Ok ()) = Some (waiting n, Ok ())) as [= ->]; [|done].
        apply Hloop. exists n. done.
    + split; [done|]. intros (n & Hn & -> & Hseen & Hnot).
      assert (Some (es', Raise e) = Some (waiting n, Ok ())) as [=].
      apply Hloop. exists n. done.
    + split; [done|]. intros (n & Hn & -> & Hseen & Hnot).
      assert (None = Some (waiting n, Ok ())) as [=].
      apply Hloop. exists n. done.
  - unfold wait_for_production, production_events.
    pose proof (wait_until_exits w "DeployModelProd" "DeployProd"
                  "Succeeded" name fuel 0) as Hloop.
    destruct (wait_until _ _ _ _ _ fuel 0) as [[es' [[]|e]]|]; cbn.
    + split.
      * intros [= <-]. destruct (proj1 (Hloop es') eq_refl) as (n & ? & -> & ? & ?).
        exists n. done.
      * intros (n & Hn & -> & Hseen & Hnot).
        assert (Some (es', Ok ()) = Some (waiting n, Ok ())) as [= ->]; [|done].
        apply Hloop. exists n. done.
    + split; [done|]. intros (n & Hn & -> & Hseen & Hnot).
      assert (Some (es', Raise e) = Some (waiting n, Ok ())) as [=].
      apply Hloop. exists n. done.
    + split; [done|]. intros (n & Hn & -> & Hseen & Hnot).
      assert (None = Some (waiting n, Ok ())) as [=].
      apply Hloop. exists n. done.
Qed.

(** In [studio], the staging loop ends at the third poll. *)
Lemma waiting_loops_exit_on_status_witness :
  ∃ n, n < 5
    ∧ staging_events studio "sagemaker-iris-p-1-modeldeploy" 2
      = staging_events studio "sagemaker-iris-p-1-modeldeploy" n
    ∧ seen studio "DeployModelStaging" "ApproveStagingDeployment" "InProgress"
        "sagemaker-iris-p-1-modeldeploy" n
    ∧ ∀ m, m < n →
        not_seen studio "DeployModelStaging" "ApproveStagingDeployment" "InProgress"
          "sagemaker-iris-p-1-modeldeploy" m.
Proof.
  apply (proj1 (proj1 (waiting_loops_exit_on_status studio
    "sagemaker-iris-p-1-modeldeploy" 5
    (staging_events studio "sagemaker-iris-p-1-modeldeploy" 2)))).
  vm_compute. reflexivity.
Defined.

(** ** Clean-up *)

Lemma account_ids_elem (summaries accounts : list value) (a account : value) :
  account_ids summaries = Ok accounts →
  a ∈ summaries → subscript a "Account" = Ok account → account ∈ accounts.
Proof.
  revert accounts. induction summaries as [|b summaries IH]; intros accounts H Hin Ha.
  - by apply not_elem_of_nil in Hin.
  - cbn in H. bind_inv H as account' Hb. bind_inv H as accounts' Hrest.
    injection H as <-. apply elem_of_cons in Hin as [->|Hin].
    + rewrite Ha in Hb. injection Hb as ->. apply list_elem_of_here.
    + apply list_elem_of_further. by apply IH.
Qed.

Lemma stack_instance_accounts_complete (w : world) (ss : string)
    (accounts : list value) (account : value) :
  stack_instance_accounts w ss = Ok accounts →
  has_instance w ss account → account ∈ accounts.
Proof.
  unfold stack_instance_accounts. intros H (r & summaries & a & Hr & Hs & Hin & Ha).
  rewrite Hr in H. cbn in H. unfold getitem in H. rewrite Hs in H. cbn in H.
  by eapply account_ids_elem.
Qed.

Lemma calls_app (es1 es2 : list event) : calls (es1 ++ es2) = calls es1 ++ calls es2.
Proof. apply List.filter_app. Qed.

(** One turn of the clean-up loop: the instances first, then the set. *)
Lemma delete_stack_set_and_instances_calls (w : world) (ss : string) :
  let run := delete_stack_set_and_instances w ss in
  let expected := [DeleteStackInstances ss (listed_accounts w ss) [region_name w] false;
                   DeleteStackSet ss] in
  calls (events run) `prefix_of` expected
  ∧ (outcome run = Ok tt → calls (events run) = expected)
  ∧ (∀ ss' accounts regions retain,
       DeleteStackInstances ss' accounts regions retain ∈ events run →
       retain = false ∧ ∀ account, has_instance w ss' account → account ∈ accounts).
Proof.
  cbn zeta. unfold delete_stack_set_and_instances, listed_accounts.
  destruct (stack_instance_accounts w ss) as [accounts|e] eqn:Hacc; cbn.
  2:{ split; [by eexists|]. split; [done|]. by intros ???? ?%not_elem_of_nil. }
  destruct (cf_delete_stack_instances w ss accounts [region_name w] false); cbn.
  2:{ split; [by eexists|]. split; [done|]. intros ???? Hin.
      repeat (apply elem_of_cons in Hin as [[=]|Hin]); subst;
        [eauto using stack_instance_accounts_complete
        |by apply not_elem_of_nil in Hin]. }
  destruct (cf_delete_stack_set w ss); cbn.
  all: split; [by eexists|]; split; [done|]; intros ???? Hin.
  all: repeat (apply elem_of_cons in Hin as [[=]|Hin]); subst;
         [eauto using stack_instance_accounts_complete
         |by apply not_elem_of_nil in Hin].
Qed.

(** C9: the calls of the clean-up cell are, in this order, the deletion of
    the instances and then of the stack set for staging, and the same two
    for production, or a beginning of this sequence if a call raises; a
    clean-up that ends normally makes all four.  Each deletion of instances
    has [RetainStacks=False] and names every account with an instance of
    the stack set. *)
Theorem stack_instances_deleted_before_stack_set (w : world)
    (project_name : string) (project_id : value) (env_data : dict)
    (staging production : value) :
  env_data !! "EnvTypeStagingName" = Some staging →
  env_data !! "EnvTypeProdName" = Some production →
  let staging_set := stack_set_name w project_name project_id staging in
  let production_set := stack_set_name w project_name project_id production in
  let run := clean_up w project_name project_id env_data in
  calls (events run) `prefix_of` clean_up_calls w staging_set production_set
  ∧ (outcome run = Ok tt →
     calls (events run) = clean_up_calls w staging_set production_set)
  ∧ (∀ ss accounts regions retain,
       DeleteStackInstances ss accounts regions retain ∈ events run →
       retain = false ∧ ∀ account, has_instance w ss account → account ∈ accounts).
Proof.
  intros Hs Hp staging_set production_set run.
  assert (run = (_ ← delete_stack_set_and_instances w staging_set;
                 _ ← delete_stack_set_and_instances w production_set;
                 mret tt)) as ->.
  { subst run staging_set production_set. unfold clean_up, getitem.
    by rewrite Hs, Hp, !pure_bind. }
  destruct (delete_stack_set_and_instances_calls w staging_set)
    as (Hpre_s & Hok_s & Hin_s).
  destruct (delete_stack_set_and_instances_calls w production_set)
    as (Hpre_p & Hok_p & Hin_p).
  pose proof (cell_bind_run (delete_stack_set_and_instances w staging_set)
    (λ _, _ ← delete_stack_set_and_instances w production_set; mret tt)) as Hrun.
  pose proof (cell_bind_run (delete_stack_set_and_instances w production_set)
    (λ _, mret tt)) as Hrun'.
  unfold clean_up_calls.
  destruct (outcome (delete_stack_set_and_instances w staging_set)) as [[]|e].
  - destruct Hrun as [-> ->]. rewrite calls_app, (Hok_s eq_refl).
    destruct (outcome (delete_stack_set_and_instances w production_set)) as [[]|e].
    + destruct Hrun' as [-> ->]. rewrite calls_app, (Hok_p eq_refl).
      cbn. split; [done|]. split; [done|].
      intros ???? [?|[?|[]%not_elem_of_nil]%elem_of_app]%elem_of_app; eauto.
    + destruct Hrun' as [-> ->]. split; [|split; [done|]].
      * by apply (prefix_app [_; _]).
      * intros ???? [?|?]%elem_of_app; eauto.
  - destruct Hrun as [-> ->]. split; [|split; [done|by eauto]].
    by apply (prefix_app_r _ [_; _] [_; _]).
Qed.

(** In [studio], the clean-up makes its four calls. *)
Lemma stack_instances_deleted_before_stack_set_witness :
  calls (events (clean_up studio "iris" (VStr "p-1") studio_types))
    = clean_up_calls studio "sagemaker-iris-p-1-deploy-staging"
        "sagemaker-iris-p-1-deploy-prod".
Proof.
  refine (proj1 (proj2 (stack_instances_deleted_before_stack_set studio "iris"
    (VStr "p-1") studio_types (VStr "staging") (VStr "prod") _ _)) _);
    vm_compute; reflexivity.
Defined.

(** ** get_environment *)

Lemma delitem_Ok (d d' : dict) (k : string) :
  delitem d k = Ok d' → is_Some (d !! k) ∧ d' = delete k d.
Proof. unfold delitem. destruct (d !! k); [|done]. intros [= <-]. eauto. Qed.

Lemma flattened_domain_Ok (w : world) (project_name : string) (r : dict) :
  flattened_domain w project_name = Ok r →
  ∃ r0 settings,
    project_domain w project_name = Ok r0
    ∧ r0 !! "DefaultUserSettings" = Some (VDict settings)
    ∧ r = delete "DefaultUserSettings"
            (settings ∪ delete "LastModifiedTime"
               (delete "CreationTime" (delete "ResponseMetadata" r0))).
Proof.
  unfold flattened_domain. intros H.
  bind_inv H as r0 Hr0. bind_inv H as r1 Hr1. bind_inv H as r2 Hr2.
  bind_inv H as r3 Hr3. bind_inv H as settings Hsettings.
  bind_inv Hsettings as sv Hsv.
  apply delitem_Ok in Hr1 as [_ ->]. apply delitem_Ok in Hr2 as [_ ->].
  apply delitem_Ok in Hr3 as [_ ->]. apply delitem_Ok in H as [_ ->].
  destruct sv; try done. injection Hsettings as ->.
  apply getitem_Ok in Hsv. rewrite !lookup_delete_ne in Hsv by done.
  by exists r0, settings.
Qed.

(** The comprehension over the tags only ever writes the two keys. *)
Lemma tags_dict_frame (tags : list value) (acc t : dict) (k : string) :
  tags_dict tags acc = Ok t →
  k ≠ "EnvironmentName" → k ≠ "EnvironmentType" → t !! k = acc !! k.
Proof.
  revert acc. induction tags as [|x tags IH]; intros acc H Hn Ht; cbn in H.
  - by injection H as <-.
  - bind_inv H as key Hkey. unfold in_strs in H. cbn [existsb] in H.
    destruct (eq_str key "EnvironmentName") eqn:E1; cbn [orb] in H.
    { apply eq_str_true in E1 as ->. bind_inv H as k' Hk'. bind_inv H as v Hv.
      rewrite Hkey in Hk'. injection Hk' as <-.
      rewrite (IH _ H Hn Ht). by rewrite lookup_insert_ne. }
    destruct (eq_str key "EnvironmentType") eqn:E2; cbn [orb] in H.
    { apply eq_str_true in E2 as ->. bind_inv H as k' Hk'. bind_inv H as v Hv.
      rewrite Hkey in Hk'. injection Hk' as <-.
      rewrite (IH _ H Hn Ht). by rewrite lookup_insert_ne. }
    by apply IH.
Qed.

Lemma load_parameter_Ok (w : world) (i : dict) (p : ssm_param) :
  load_parameter w i p
    = Ok (<[VariableName p := match fetch_parameter w i p with
                              | Ok v => v
                              | Raise _ => VStr EmptyString
                              end]> i).
Proof. unfold load_parameter. by destruct (fetch_parameter w i p). Qed.

(** The loop over [ssm_params] never raises. *)
Lemma load_parameters_ok (w : world) (i : dict) (ssm_params : list ssm_param) :
  is_ok (load_parameters w i ssm_params).
Proof.
  revert i. induction ssm_params as [|p ps IH]; intros i; cbn.
  - by exists i.
  - rewrite load_parameter_Ok. cbn. apply IH.
Qed.

Lemma load_parameters_app (w : world) (i : dict) (ps1 ps2 : list ssm_param) :
  load_parameters w i (ps1 ++ ps2)
    = load_parameters w i ps1 ≫= λ i', load_parameters w i' ps2.
Proof.
  revert i. induction ps1 as [|p ps1 IH]; intros i; cbn; [done|].
  rewrite load_parameter_Ok. cbn. apply IH.
Qed.

(** It writes the keys named by the entries and no other. *)
Lemma load_parameters_frame (w : world) (i i' : dict)
    (ssm_params : list ssm_param) (k : string) :
  load_parameters w i ssm_params = Ok i' →
  (∀ q, q ∈ ssm_params → VariableName q ≠ k) →
  i' !! k = i !! k.
Proof.
  revert i. induction ssm_params as [|p ps IH]; intros i H Hk; cbn in H.
  - by injection H as <-.
  - rewrite load_parameter_Ok in H. cbn in H.
    rewrite (IH _ H) by (intros q Hq; apply Hk; by apply list_elem_of_further).
    apply lookup_insert_ne, Hk, list_elem_of_here.
Qed.

(** Keys are never removed by the loop. *)
Lemma load_parameters_keeps (w : world) (i i' : dict)
    (ssm_params : list ssm_param) (k : string) :
  load_parameters w i ssm_params = Ok i' → is_Some (i !! k) → is_Some (i' !! k).
Proof.
  revert i. induction ssm_params as [|p ps IH]; intros i H Hk; cbn in H.
  - by injection H as <-.
  - rewrite load_parameter_Ok in H. cbn in H. apply (IH _ H).
    rewrite lookup_insert. by case_decide.
Qed.

Lemma domain_environment_Ok (w : world) (project_name : string) (i : dict) :
  domain_environment w project_name = Ok i →
  ∃ r tags, flattened_domain w project_name = Ok r
    ∧ environment_tags w r = Ok tags ∧ i = tags ∪ r.
Proof.
  unfold domain_environment. intros H.
  bind_inv H as r Hr. bind_inv H as tags Htags. injection H as <-.
  by exists r, tags.
Qed.

Lemma environment_tags_frame (w : world) (r tags : dict) (k : string) :
  environment_tags w r = Ok tags →
  k ≠ "EnvironmentName" → k ≠ "EnvironmentType" → tags !! k = None.
Proof.
  unfold environment_tags. intros H Hn Ht.
  bind_inv H as arn Harn. bind_inv H as response Hresponse.
  bind_inv H as l Hl.
  by rewrite (tags_dict_frame _ _ _ _ H Hn Ht).
Qed.

(** C8, as the code has it: when neither the default user settings nor the
    variable names of [ssm_params] bring one of them back, the four removed
    keys are absent from the dictionary returned; every key of the default
    user settings other than [DefaultUserSettings] is a key of it; and
    outside [EnvironmentName], [EnvironmentType] and the variable names it
    agrees with the flattened description of the domain, so that no other
    tag of the domain reaches it. *)
Theorem environment_keys (w : world) (project_name : string)
    (ssm_params : list ssm_param) (r0 settings i : dict) :
  project_domain w project_name = Ok r0 →
  r0 !! "DefaultUserSettings" = Some (VDict settings) →
  get_environment w project_name ssm_params = Ok i →
  ((∀ k, k ∈ removed_keys → k ≠ "DefaultUserSettings" → settings !! k = None) →
   (∀ q k, q ∈ ssm_params → k ∈ removed_keys → VariableName q ≠ k) →
   ∀ k, k ∈ removed_keys → i !! k = None)
  ∧ (∀ k, k ≠ "DefaultUserSettings" → is_Some (settings !! k) → is_Some (i !! k))
  ∧ (∀ r k, flattened_domain w project_name = Ok r →
       k ≠ "EnvironmentName" → k ≠ "EnvironmentType" →
       (∀ q, q ∈ ssm_params → VariableName q ≠ k) →
       i !! k = r !! k).
Proof.
  intros Hr0 Hsettings H. unfold get_environment in H.
  bind_inv H as i0 Hi0.
  apply domain_environment_Ok in Hi0 as (r & tags & Hr & Htags & ->).
  assert (∀ k, k ≠ "EnvironmentName" → k ≠ "EnvironmentType" →
               (tags ∪ r) !! k = r !! k) as Hframe.
  { intros k Hn Ht. apply lookup_union_r. by eapply environment_tags_frame. }
  pose proof Hr as Hflat.
  apply flattened_domain_Ok in Hflat as (r0' & settings' & Hr0' & Hsettings' & Hflat).
  rewrite Hr0 in Hr0'. injection Hr0' as <-.
  rewrite Hsettings in Hsettings'. injection Hsettings' as <-.
  split; [|split].
  - intros Hclean Hvars k Hk.
    rewrite (load_parameters_frame _ _ _ _ _ H) by (intros q Hq; by apply Hvars).
    unfold removed_keys in Hk.
    rewrite Hframe by (repeat (apply elem_of_cons in Hk as [->|Hk]); try done;
                       by apply not_elem_of_nil in Hk).
    rewrite Hflat.
    destruct (decide (k = "DefaultUserSettings")) as [->|Hne];
      [by rewrite lookup_delete_eq|].
    rewrite lookup_delete_ne by done.
    apply lookup_union_None_2; [by apply Hclean|].
    repeat (apply elem_of_cons in Hk as [->|Hk]);
      [by simplify_map_eq..|by apply not_elem_of_nil in Hk].
  - intros k Hne [v Hv]. apply (load_parameters_keeps _ _ _ _ _ H).
    assert (r !! k = Some v) as Hrk.
    { rewrite Hflat, lookup_delete_ne by done. by apply lookup_union_Some_l. }
    destruct (tags !! k) as [t|] eqn:Et.
    + exists t. by apply lookup_union_Some_l.
    + exists v. by rewrite lookup_union_r.
  - intros r' k Hr' Hn Ht Hvars. rewrite Hr in Hr'. injection Hr' as <-.
    rewrite (load_parameters_frame _ _ _ _ _ H) by done. by apply Hframe.
Qed.

(** In [studio], the environment of the project has no [CreationTime] and
    has the [ExecutionRole] of the default user settings. *)
Lemma environment_keys_witness :
  studio_environment !! "CreationTime" = None
  ∧ is_Some (studio_environment !! "ExecutionRole").
Proof.
  destruct (environment_keys studio "iris" [bucket_parameter]
    studio_domain {[ "ExecutionRole" := VStr "arn:role" ]} studio_environment)
    as (Hremoved & Hsettings & _); [vm_compute; reflexivity..|].
  split.
  - apply Hremoved.
    + intros k Hk _. unfold removed_keys in Hk.
      repeat (apply elem_of_cons in Hk as [->|Hk]); [reflexivity..|].
      by apply not_elem_of_nil in Hk.
    + intros q k Hq Hk. apply list_elem_of_singleton in Hq as ->.
      unfold removed_keys in Hk.
      repeat (apply elem_of_cons in Hk as [->|Hk]); [discriminate..|].
      by apply not_elem_of_nil in Hk.
    + unfold removed_keys. apply list_elem_of_further, list_elem_of_here.
  - apply Hsettings; [discriminate|]. eexists. reflexivity.
Defined.

(** C8, as stated, fails: a variable named [CreationTime] puts that key back
    into the dictionary returned. *)
Lemma removed_key_is_loaded_again :
  get_environment studio "iris"
    [{| VariableName := "CreationTime"; ParameterName := "data-bucket-name" |}]
  = Ok {[ "DomainArn" := VStr "arn:domain/d-1";
          "ExecutionRole" := VStr "arn:role";
          "EnvironmentName" := VStr "sm";
          "EnvironmentType" := VStr "dev";
          "CreationTime" := VStr "dev-data" ]}.
Proof. vm_compute. reflexivity. Qed.

(** What the dictionary returned holds for an entry that is the last with
    its variable name, when the tags carry both keys and no earlier entry
    is stored under one of them. *)
Lemma loaded_entry_lookup (w : world)
    (project_name : string) (r tags : dict) (environment_name environment_type : value)
    (before : list ssm_param) (p : ssm_param) (after : list ssm_param) :
  flattened_domain w project_name = Ok r →
  environment_tags w r = Ok tags →
  tags !! "EnvironmentName" = Some environment_name →
  tags !! "EnvironmentType" = Some environment_type →
  (∀ q, q ∈ before →
     VariableName q ≠ "EnvironmentName" ∧ VariableName q ≠ "EnvironmentType") →
  (∀ q, q ∈ after → VariableName q ≠ VariableName p) →
  ∃ i, get_environment w project_name (before ++ p :: after) = Ok i
     ∧ i !! VariableName p
       = Some (stored_value w (parameter_path w environment_name environment_type
                                 (ParameterName p))).
Proof.
  intros Hr Htags Hname Htype Hbefore Hafter.
  unfold get_environment, domain_environment. rewrite Hr. cbn. rewrite Htags. cbn.
  rewrite load_parameters_app.
  destruct (load_parameters_ok w (merge_dicts r tags) before) as [i1 Hi1].
  rewrite Hi1. cbn. rewrite load_parameter_Ok. cbn.
  match goal with |- context [load_parameters w ?j after] =>
    destruct (load_parameters_ok w j after) as [i Hi]; exists i; split; [done|];
    rewrite (load_parameters_frame _ _ _ _ _ Hi) by done
  end.
  rewrite lookup_insert_eq. f_equal. unfold fetch_parameter, getitem, stored_value.
  rewrite (load_parameters_frame _ _ _ _ _ Hi1) by (intros q Hq; by apply Hbefore).
  rewrite (load_parameters_frame _ _ _ _ _ Hi1) by (intros q Hq; by apply Hbefore).
  unfold merge_dicts.
  rewrite (lookup_union_Some_l _ _ _ _ Hname), (lookup_union_Some_l _ _ _ _ Htype).
  reflexivity.
Qed.

(** C5, as the code has it: when the tags of the domain carry both keys,
    with the strings [environment_name] and [environment_type], and no
    earlier entry is stored under one of them, [get_environment] returns,
    and for an entry that is the last with its variable name the dictionary
    returned is decided by the answer of [ssm.get_parameter] to the name
    [environment_name-environment_type-ParameterName]: it holds under the
    variable name the [Value] of the [Parameter] of the response, the empty
    string when the call raised, and the empty string when the response has
    no such member. *)
Theorem parameters_are_loaded_under_templated_names (w : world)
    (project_name : string) (r tags : dict) (environment_name environment_type : string)
    (before : list ssm_param) (p : ssm_param) (after : list ssm_param) :
  flattened_domain w project_name = Ok r →
  environment_tags w r = Ok tags →
  tags !! "EnvironmentName" = Some (VStr environment_name) →
  tags !! "EnvironmentType" = Some (VStr environment_type) →
  (∀ q, q ∈ before →
     VariableName q ≠ "EnvironmentName" ∧ VariableName q ≠ "EnvironmentType") →
  (∀ q, q ∈ after → VariableName q ≠ VariableName p) →
  let name :=
    environment_name +:+ "-" +:+ environment_type +:+ "-" +:+ ParameterName p in
  ∃ i, get_environment w project_name (before ++ p :: after) = Ok i
     ∧ (∀ response parameter v,
          ssm_get_parameter w name = Ok response →
          response !! "Parameter" = Some (VDict parameter) →
          parameter !! "Value" = Some v →
          i !! VariableName p = Some v)
     ∧ (∀ e, ssm_get_parameter w name = Raise e →
          i !! VariableName p = Some (VStr EmptyString))
     ∧ (∀ response,
          ssm_get_parameter w name = Ok response →
          (∀ parameter v, response !! "Parameter" = Some (VDict parameter) →
                          parameter !! "Value" ≠ Some v) →
          i !! VariableName p = Some (VStr EmptyString)).
Proof.
  intros Hr Htags Hname Htype Hbefore Hafter name.
  destruct (loaded_entry_lookup w project_name r tags (VStr environment_name)
              (VStr environment_type) before p after Hr Htags Hname Htype
              Hbefore Hafter) as (i & Hi & Hstored).
  assert (parameter_path w (VStr environment_name) (VStr environment_type)
            (ParameterName p) = name) as Hpath.
  { unfold parameter_path. by fstring_simpl. }
  rewrite Hpath in Hstored. unfold stored_value, parameter_value in Hstored.
  exists i. split; [done|]. split; [|split].
  - intros response parameter v Hresponse Hparameter Hv.
    rewrite Hstored, Hresponse. cbn. unfold getitem. rewrite Hparameter. cbn.
    unfold getitem. by rewrite Hv.
  - intros e He. by rewrite Hstored, He.
  - intros response Hresponse Hnone. rewrite Hstored, Hresponse. cbn.
    unfold getitem. destruct (response !! "Parameter") as [pv|] eqn:Hpv; [|done].
    cbn. destruct pv as [| | | | |l|parameter]; try done.
    cbn. unfold getitem.
    destruct (parameter !! "Value") as [v|] eqn:Hv; [|done].
    by destruct (Hnone parameter v).
Qed.

(** In [studio], between the model bucket, which has no parameter, and the
    endpoint id, the data bucket is read under [sm-dev-data-bucket-name]. *)
Lemma parameters_are_loaded_under_templated_names_witness :
  ∃ i, get_environment studio "iris"
         ([model_bucket_parameter] ++ bucket_parameter :: [vpce_parameter]) = Ok i
     ∧ i !! "DataBucketName" = Some (VStr "dev-data").
Proof.
  destruct (parameters_are_loaded_under_templated_names studio "iris"
    studio_flattened
    {[ "EnvironmentName" := VStr "sm"; "EnvironmentType" := VStr "dev" ]}
    "sm" "dev" [model_bucket_parameter] bucket_parameter [vpce_parameter])
    as (i & Hi & Hfetched & _).
  - vm_compute. reflexivity.
  - vm_compute. reflexivity.
  - vm_compute. reflexivity.
  - vm_compute. reflexivity.
  - intros q Hq. apply list_elem_of_singleton in Hq as ->. by split.
  - intros q Hq. apply list_elem_of_singleton in Hq as ->. discriminate.
  - exists i. split; [exact Hi|].
    apply (Hfetched (parameter "dev-data") {[ "Value" := VStr "dev-data" ]});
      reflexivity.
Defined.

(** C5, as stated, fails: once an entry has stored [prod] under
    [EnvironmentType], the next one is read under the path made with it and
    not with the tag [dev] of the domain, although the parameter under the
    path of the tags exists; and an entry whose parameter is missing gets
    the empty string. *)
Lemma parameter_path_follows_the_dictionary :
  environment_tags studio studio_flattened
    = Ok {[ "EnvironmentName" := VStr "sm"; "EnvironmentType" := VStr "dev" ]}
  ∧ parameter_value studio "sm-dev-data-bucket-name" = Ok (VStr "dev-data")
  ∧ parameter_value studio "sm-dev-model-bucket-name"
    = Raise (ClientError "ParameterNotFound")
  ∧ get_environment studio "iris"
      [{| VariableName := "EnvironmentType"; ParameterName := "env-type-prod-name" |};
       {| VariableName := "DataBucketName"; ParameterName := "data-bucket-name" |};
       {| VariableName := "ModelBucketName"; ParameterName := "model-bucket-name" |}]
    = Ok {[ "DomainArn" := VStr "arn:domain/d-1";
            "ExecutionRole" := VStr "arn:role";
            "EnvironmentName" := VStr "sm";
            "EnvironmentType" := VStr "prod";
            "DataBucketName" := VStr "prod-data";
            "ModelBucketName" := VStr EmptyString ]}.
Proof. repeat split; vm_compute; reflexivity. Qed.

(** ** Exceptions *)






(** * Further properties *)

(** A result that evaluates to a value is that value. *)
Lemma succeeds_Ok {A} (r : result A) (d : A) :
  succeeds r = true → r = Ok (match r with Ok a => a | Raise _ => d end).
Proof. by destruct r. Qed.

(** Closes a goal [r = Ok x], where [x] is defined as the value of [r], by
    evaluating [r] just far enough to see that it succeeds. *)
Ltac evaluates := apply (succeeds_Ok _ ∅); vm_compute; reflexivity.

Lemma succeeds_is_ok {A} (r : result A) : succeeds r = true → is_ok r.
Proof. destruct r; [by eexists|done]. Qed.

(** ** get_environment *)

Lemma load_parameters_stable (w : world) (i j : dict) (ssm_params : list ssm_param) :
  Forall plain_variable ssm_params →
  j !! "EnvironmentName" = i !! "EnvironmentName" →
  j !! "EnvironmentType" = i !! "EnvironmentType" →
  load_parameters w j ssm_params = Ok (store_all (loaded w i) j ssm_params).
Proof.
  intros Hplain. revert j. induction Hplain as [|p ps [Hn Ht] _ IH]; intros j Hjn Hjt.
  - reflexivity.
  - cbn. rewrite load_parameter_Ok. cbn.
    assert (fetch_parameter w j p = fetch_parameter w i p) as ->.
    { unfold fetch_parameter, getitem. by rewrite Hjn, Hjt. }
    apply IH; by rewrite lookup_insert_ne.
Qed.

Lemma store_all_ext (f g : ssm_param → value) (i : dict) (ssm_params : list ssm_param) :
  (∀ p, p ∈ ssm_params → f p = g p) →
  store_all f i ssm_params = store_all g i ssm_params.
Proof.
  revert i. induction ssm_params as [|p ps IH]; intros i Hfg; [done|].
  cbn. rewrite (Hfg p) by apply list_elem_of_here.
  apply IH. intros q Hq. by apply Hfg, list_elem_of_further.
Qed.

Lemma load_parameters_stores (w : world) (i i' : dict)
    (ssm_params : list ssm_param) (p : ssm_param) :
  load_parameters w i ssm_params = Ok i' →
  p ∈ ssm_params → is_Some (i' !! VariableName p).
Proof.
  revert i. induction ssm_params as [|q ps IH]; intros i H Hp.
  - by apply not_elem_of_nil in Hp.
  - cbn in H. rewrite load_parameter_Ok in H. cbn in H.
    apply elem_of_cons in Hp as [->|Hp]; [|by eapply IH].
    apply (load_parameters_keeps _ _ _ _ _ H). by rewrite lookup_insert_eq.
Qed.

(** X1: the dictionary that [get_environment] returns has a value under the
    variable name of every entry of [ssm_params], and under every key that
    the description of the domain and its tags gave. *)
Theorem get_environment_has_every_variable (w : world) (project_name : string)
    (ssm_params : list ssm_param) (i : dict) :
  get_environment w project_name ssm_params = Ok i →
  (∀ p, p ∈ ssm_params → is_Some (i !! VariableName p))
  ∧ (∀ i0 k, domain_environment w project_name = Ok i0 →
       is_Some (i0 !! k) → is_Some (i !! k)).
Proof.
  unfold get_environment. intros H. bind_inv H as i0 Hi0. split.
  - intros p Hp. by eapply load_parameters_stores.
  - intros i0' k Hi0' Hk. rewrite Hi0 in Hi0'. injection Hi0' as <-.
    by eapply load_parameters_keeps.
Qed.

(** In [studio], the data bucket is a key of the environment. *)
Lemma get_environment_has_every_variable_witness :
  is_Some (studio_environment !! "DataBucketName").
Proof.
  refine (proj1 (get_environment_has_every_variable studio "iris"
    [bucket_parameter] studio_environment _) bucket_parameter _).
  - evaluates.
  - apply list_elem_of_here.
Defined.

(** The value under a key that is neither an environment tag nor a
    variable name. *)
Lemma get_environment_lookup (w : world) (project_name : string)
    (ssm_params : list ssm_param) (r0 settings i : dict) (k : string) :
  project_domain w project_name = Ok r0 →
  r0 !! "DefaultUserSettings" = Some (VDict settings) →
  get_environment w project_name ssm_params = Ok i →
  k ≠ "EnvironmentName" → k ≠ "EnvironmentType" →
  (∀ q, q ∈ ssm_params → VariableName q ≠ k) →
  i !! k =
    if decide (k = "DefaultUserSettings") then None
    else match settings !! k with
         | Some v => Some v
         | None =>
             if decide (k ∈ ["ResponseMetadata"; "CreationTime"; "LastModifiedTime"])
             then None else r0 !! k
         end.
Proof.
  intros Hr0 Hsettings H Hn Ht Hvars. unfold get_environment in H.
  bind_inv H as i0 Hi0.
  apply domain_environment_Ok in Hi0 as (r & tags & Hr & Htags & ->).
  apply flattened_domain_Ok in Hr as (r0' & settings' & Hr0' & Hsettings' & ->).
  rewrite Hr0 in Hr0'. injection Hr0' as <-.
  rewrite Hsettings in Hsettings'. injection Hsettings' as <-.
  rewrite (load_parameters_frame _ _ _ _ _ H) by done.
  rewrite lookup_union_r by (by eapply environment_tags_frame).
  case_decide as Hk; [subst; by rewrite lookup_delete_eq|].
  rewrite lookup_delete_ne by done.
  destruct (settings !! k) as [v|] eqn:Hv; [by apply lookup_union_Some_l|].
  rewrite lookup_union_r by done.
  case_decide as Hdel.
  - repeat (apply elem_of_cons in Hdel as [->|Hdel]);
      [by simplify_map_eq..|by apply not_elem_of_nil in Hdel].
  - rewrite !lookup_delete_ne; [done|..]; intros <-; apply Hdel;
      repeat first [apply list_elem_of_here|apply list_elem_of_further].
Qed.

(** X2: under a key that is neither an environment tag nor a variable name,
    the dictionary returned holds the member of the default user settings
    when there is one, and otherwise the member of the description of the
    domain, the deleted ones apart. *)
Theorem get_environment_flattens_settings (w : world) (project_name : string)
    (ssm_params : list ssm_param) (r0 settings i : dict) (k : string) :
  project_domain w project_name = Ok r0 →
  r0 !! "DefaultUserSettings" = Some (VDict settings) →
  get_environment w project_name ssm_params = Ok i →
  k ≠ "EnvironmentName" → k ≠ "EnvironmentType" →
  (∀ q, q ∈ ssm_params → VariableName q ≠ k) →
  i !! k =
    if decide (k = "DefaultUserSettings") then None
    else match settings !! k with
         | Some v => Some v
         | None =>
             if decide (k ∈ ["ResponseMetadata"; "CreationTime"; "LastModifiedTime"])
             then None else r0 !! k
         end.
Proof. apply get_environment_lookup. Qed.

(** In [studio], the execution role of the environment is the one of the
    default user settings. *)
Lemma get_environment_flattens_settings_witness :
  studio_environment !! "ExecutionRole" = Some (VStr "arn:role").
Proof.
  refine (get_environment_flattens_settings studio "iris" [bucket_parameter]
    studio_domain {[ "ExecutionRole" := VStr "arn:role" ]} studio_environment
    "ExecutionRole" _ _ _ _ _ _).
  - evaluates.
  - vm_compute. reflexivity.
  - evaluates.
  - discriminate.
  - discriminate.
  - intros q Hq. apply list_elem_of_singleton in Hq as ->. discriminate.
Defined.

(** X3: when the domain gives no [EnvironmentName] or no [EnvironmentType]
    and no entry is stored under these keys, [get_environment] stores the
    empty string for every entry, whatever the parameter store holds. *)
Theorem missing_environment_tag_empties_variables (w : world)
    (project_name : string) (ssm_params : list ssm_param) (i0 : dict) :
  domain_environment w project_name = Ok i0 →
  i0 !! "EnvironmentName" = None ∨ i0 !! "EnvironmentType" = None →
  Forall plain_variable ssm_params →
  get_environment w project_name ssm_params
    = Ok (store_all (λ _, VStr EmptyString) i0 ssm_params).
Proof.
  intros Hi0 Hmissing Hplain. unfold get_environment. rewrite Hi0. cbn.
  rewrite (load_parameters_stable w i0 i0) by done. f_equal.
  apply store_all_ext. intros p _. unfold loaded, fetch_parameter, getitem.
  destruct Hmissing as [-> | Ht]; [done|].
  destruct (i0 !! "EnvironmentName"); [|done]. cbn. by rewrite Ht.
Qed.

(** In [untagged], the data bucket is empty although the parameter store
    has it. *)
Lemma missing_environment_tag_empties_variables_witness :
  get_environment untagged "iris" [bucket_parameter]
    = Ok (store_all (λ _, VStr EmptyString) untagged_domain [bucket_parameter]).
Proof.
  refine (missing_environment_tag_empties_variables untagged "iris"
    [bucket_parameter] untagged_domain _ _ _).
  - evaluates.
  - left. vm_compute. reflexivity.
  - repeat constructor; discriminate.
Defined.

Lemma delitem_Some (d : dict) (k : string) :
  is_Some (d !! k) → delitem d k = Ok (delete k d).
Proof. unfold delitem. by intros [v ->]. Qed.

Lemma delitem_None (d : dict) (k : string) :
  d !! k = None → delitem d k = Raise (KeyError k).
Proof. unfold delitem. by intros ->. Qed.

(** X4: when the description of the domain lacks one of the four members
    that [get_environment] removes, the first one lacking, in the order of
    the code, is the key of the [KeyError] that [get_environment] raises. *)
Theorem get_environment_missing_member (w : world) (project_name : string)
    (ssm_params : list ssm_param) (r0 : dict) (before : list string) (k : string)
    (after : list string) :
  project_domain w project_name = Ok r0 →
  removed_keys = before ++ k :: after →
  (∀ k', k' ∈ before → is_Some (r0 !! k')) →
  r0 !! k = None →
  get_environment w project_name ssm_params = Raise (KeyError k).
Proof.
  intros Hr0 Hkeys Hbefore Hk.
  unfold get_environment, domain_environment, flattened_domain. rewrite Hr0. cbn.
  unfold removed_keys in Hkeys.
  destruct before as [|k1 before]; [injection Hkeys as <- _|injection Hkeys as <- Hkeys].
  { by rewrite delitem_None. }
  rewrite delitem_Some by (apply Hbefore, list_elem_of_here). cbn.
  destruct before as [|k2 before]; [injection Hkeys as <- _|injection Hkeys as <- Hkeys].
  { rewrite delitem_None; [done|]. by rewrite lookup_delete_ne. }
  rewrite delitem_Some
    by (rewrite lookup_delete_ne by done;
        apply Hbefore, list_elem_of_further, list_elem_of_here). cbn.
  destruct before as [|k3 before]; [injection Hkeys as <- _|injection Hkeys as <- Hkeys].
  { rewrite delitem_None; [done|]. by rewrite !lookup_delete_ne. }
  rewrite delitem_Some
    by (rewrite !lookup_delete_ne by done;
        apply Hbefore; do 2 apply list_elem_of_further; apply list_elem_of_here). cbn.
  destruct before as [|k4 before]; [injection Hkeys as <- _|injection Hkeys as <- Hkeys].
  { unfold getitem. rewrite !lookup_delete_ne by done. by rewrite Hk. }
  by destruct before.
Qed.

(** In [stalled], the description of the domain stops at [CreationTime]. *)
Lemma get_environment_missing_member_witness :
  get_environment stalled "iris" [bucket_parameter]
    = Raise (KeyError "LastModifiedTime").
Proof.
  refine (get_environment_missing_member stalled "iris" [bucket_parameter]
    stalled_domain ["ResponseMetadata"; "CreationTime"] "LastModifiedTime"
    ["DefaultUserSettings"] _ _ _ _).
  - evaluates.
  - reflexivity.
  - intros k' Hk'. repeat (apply elem_of_cons in Hk' as [->|Hk']);
      [eexists; vm_compute; reflexivity..|by apply not_elem_of_nil in Hk'].
  - vm_compute. reflexivity.
Defined.

Lemma store_all_permutation (f : ssm_param → value) (ps ps' : list ssm_param) :
  ps ≡ₚ ps' →
  NoDup (VariableName <$> ps) →
  ∀ i, store_all f i ps = store_all f i ps'.
Proof.
  induction 1 as [|p ps ps' Hperm IH|p q ps|ps ps' ps'' Hperm IH Hperm' IH'];
    intros Hdup i.
  - done.
  - cbn. apply IH. by apply NoDup_cons in Hdup as [_ ?].
  - cbn. rewrite insert_insert_ne; [done|].
    cbn in Hdup. apply NoDup_cons in Hdup as [Hq _].
    intros Heq. apply Hq. rewrite Heq. apply list_elem_of_here.
  - rewrite IH by done. apply IH'. by rewrite <- Hperm.
Qed.

(** X5: when the domain is read and the entries have distinct variable
    names, none of them an environment key, the order of the entries of
    [ssm_params] does not change what [get_environment] returns. *)
Theorem get_environment_order_irrelevant (w : world) (project_name : string)
    (ssm_params ssm_params' : list ssm_param) :
  is_ok (domain_environment w project_name) →
  Forall plain_variable ssm_params →
  NoDup (VariableName <$> ssm_params) →
  ssm_params ≡ₚ ssm_params' →
  get_environment w project_name ssm_params
    = get_environment w project_name ssm_params'.
Proof.
  intros [i0 Hi0] Hplain Hdup Hperm. unfold get_environment. rewrite Hi0. cbn.
  rewrite !(load_parameters_stable w i0 i0) by (done || by rewrite <- Hperm).
  f_equal. by apply store_all_permutation.
Qed.

(** In [studio], the two buckets can be asked for in either order. *)
Lemma get_environment_order_irrelevant_witness :
  get_environment studio "iris" [bucket_parameter; model_bucket_parameter]
    = get_environment studio "iris" [model_bucket_parameter; bucket_parameter].
Proof.
  refine (get_environment_order_irrelevant studio "iris" _ _ _ _ _ _).
  - apply succeeds_is_ok. vm_compute. reflexivity.
  - repeat constructor; discriminate.
  - cbn. apply NoDup_cons. split; [|apply NoDup_singleton].
    intros Hin%list_elem_of_singleton. discriminate.
  - apply perm_swap.
Defined.

(** ** Approval of the latest model package *)

Lemma extend_from_pages_concat (pages : list dict) (lists : list (list value))
    (acc : list value) :
  Forall2 lists_summaries pages lists →
  extend_from_pages (Ok <$> pages) acc = Ok (acc ++ concat lists).
Proof.
  intros H. revert acc. induction H as [|page l pages lists Hpage _ IH]; intros acc; cbn.
  - by rewrite app_nil_r.
  - unfold getitem. rewrite Hpage. cbn. by rewrite IH, app_assoc.
Qed.

(** X6: when every page is fetched, the list of model packages is made of
    the summaries of the pages, page after page and in the order of each
    page; pages without summaries add nothing. *)
Theorem pages_are_listed_in_order (w : world) (group : string)
    (pages : list dict) (lists : list (list value)) :
  sm_paginate_list_model_packages w group "CreationTime" "Descending"
    = Ok <$> pages →
  Forall2 lists_summaries pages lists →
  listed_model_packages w group = Ok (concat lists).
Proof.
  intros Hpages Hlists. unfold listed_model_packages. rewrite Hpages.
  by rewrite (extend_from_pages_concat _ _ _ Hlists).
Qed.

(** In [stalled], the first page is empty and the listing starts with the
    summary of the second. *)
Lemma pages_are_listed_in_order_witness :
  listed_model_packages stalled "iris-p-1"
    = Ok (concat [[]; [summary "arn:model-package/7" 70];
                  [summary "arn:model-package/6" 60;
                   summary "arn:model-package/5" 50]]).
Proof.
  refine (pages_are_listed_in_order stalled "iris-p-1"
    [ {[ "ModelPackageSummaryList" := VList [] ]};
      {[ "ModelPackageSummaryList" := VList [summary "arn:model-package/7" 70] ]};
      {[ "ModelPackageSummaryList" :=
           VList [summary "arn:model-package/6" 60;
                  summary "arn:model-package/5" 50] ]} ] _ _ _).
  - reflexivity.
  - repeat constructor.
Defined.

(** X7: the two approval cells call [update_model_package] once, for the
    ARN that the selection yielded, or not at all when the selection
    raised; they make no other call. *)
Theorem approval_calls_follow_selection (w : world) (group : string) :
  calls (events (model_approval w group)) =
    match outcome (select_latest_model_package w group) with
    | Ok arn => [UpdateModelPackage arn "Approved"]
    | Raise _ => []
    end.
Proof.
  unfold model_approval, select_latest_model_package.
  destruct (listed_model_packages w group) as [[|mp rest]|e]; cbn; [done| |done].
  by destruct (subscript mp "ModelPackageArn").
Qed.

(** ** Waiting for the deployment pipeline *)

Lemma wait_until_unseen (w : world) (stage_name action_name status name : string)
    (fuel k : nat) :
  (∀ m, not_seen w stage_name action_name status name (k + m)) →
  wait_until w stage_name action_name status name fuel k = None.
Proof.
  revert k. induction fuel as [|fuel IH]; intros k Hnot; [done|].
  cbn [wait_until].
  assert (cp_get_pipeline_state w name k
          ≫= matching_actions stage_name action_name status = Ok []) as ->.
  { apply not_seen_poll. specialize (Hnot 0). by rewrite Nat.add_0_r in Hnot. }
  cbn [length Nat.eqb]. rewrite IH; [done|].
  intros m. specialize (Hnot (S m)). by rewrite Nat.add_succ_r in Hnot.
Qed.

(** X8: a waiting cell whose polls never raise and never find the awaited
    status does not end, however many polls it is given: the loops have no
    other way out, such as a number of attempts or a failed deployment. *)
Theorem waiting_never_ends_unseen (w : world) (name : string) :
  ((∀ k, not_seen w "DeployModelStaging" "ApproveStagingDeployment" "InProgress"
           name k) →
   ∀ fuel, wait_for_staging w name fuel = None)
  ∧ ((∀ k, not_seen w "DeployModelProd" "DeployProd" "Succeeded" name k) →
     ∀ fuel, wait_for_production w name fuel = None).
Proof.
  split; intros Hnot fuel.
  - unfold wait_for_staging. by rewrite wait_until_unseen.
  - unfold wait_for_production. by rewrite wait_until_unseen.
Qed.

(** In [stalled], where the staging deployment failed, the staging cell is
    still waiting after a thousand polls. *)
Lemma waiting_never_ends_unseen_witness :
  wait_for_staging stalled "sagemaker-iris-p-1-modeldeploy" 1000 = None.
Proof.
  refine (proj1 (waiting_never_ends_unseen stalled
    "sagemaker-iris-p-1-modeldeploy") _ 1000).
  intros k. apply not_seen_poll. vm_compute. reflexivity.
Defined.

Lemma matching_actions_missing_stage (stage_name action_name status : string)
    (state : dict) (stages : list value) :
  state !! "stageStates" = Some (VList stages) →
  Forall has_stage_name stages →
  List.find (named "stageName" stage_name) stages = None →
  matching_actions stage_name action_name status state = Raise IndexError.
Proof.
  intros Hstages Hnames Hfind. unfold matching_actions, getitem.
  rewrite Hstages. cbn.
  destruct (comprehension_ok (in_stage stage_name) stages) as [kept Hkept].
  { eapply Forall_impl; [exact Hnames|]. intros s (sd & n & -> & Hn).
    unfold in_stage. cbn. unfold getitem. rewrite Hn. by eexists. }
  rewrite Hkept. cbn.
  pose proof (comprehension_first _ _ _ _ (in_stage_named stage_name) Hkept) as Hfirst.
  rewrite Hfind in Hfirst. by rewrite Hfirst.
Qed.

(** X9: when the state that the first poll fetches has no stage of the
    awaited name, among stages that all have a name, the waiting cell ends
    at once with an [IndexError], having printed its first line only. *)
Theorem missing_stage_raises_index_error (w : world) (name : string)
    (state : dict) (stages : list value) (fuel : nat) :
  cp_get_pipeline_state w name 0 = Ok state →
  state !! "stageStates" = Some (VList stages) →
  Forall has_stage_name stages →
  (List.find (named "stageName" "DeployModelStaging") stages = None →
   wait_for_staging w name (S fuel)
     = Some ([Output "waiting till the pipeline stops at the manual approval stage"],
             Raise IndexError))
  ∧ (List.find (named "stageName" "DeployModelProd") stages = None →
     wait_for_production w name (S fuel)
       = Some ([Output "waiting for production endpoint deployment"],
               Raise IndexError)).
Proof.
  intros Hstate Hstages Hnames. split; intros Hfind.
  - unfold wait_for_staging. cbn [wait_until]. rewrite Hstate. cbn [mbind result_bind].
    by rewrite (matching_actions_missing_stage _ _ _ _ _ Hstages Hnames Hfind).
  - unfold wait_for_production. cbn [wait_until]. rewrite Hstate. cbn [mbind result_bind].
    by rewrite (matching_actions_missing_stage _ _ _ _ _ Hstages Hnames Hfind).
Qed.

(** In [stalled], whose pipeline has no production stage, the production
    cell raises at its first poll. *)
Lemma missing_stage_raises_index_error_witness :
  wait_for_production stalled "sagemaker-iris-p-1-modeldeploy" 1
    = Some ([Output "waiting for production endpoint deployment"],
            Raise IndexError).
Proof.
  refine (proj2 (missing_stage_raises_index_error stalled
    "sagemaker-iris-p-1-modeldeploy" _
    [stage "DeployModelStaging"
       [action "DeployStaging" (Some "Failed");
        action "ApproveStagingDeployment" None]] 0 _ _ _) _).
  - reflexivity.
  - reflexivity.
  - repeat constructor. eexists _, _. split; [reflexivity|]. vm_compute. reflexivity.
  - vm_compute. reflexivity.
Defined.

(** ** Clean-up *)

(** X10: the list of accounts is made when every summary has its account,
    and then it has the account of each summary, in the order of the
    summaries and as many times as summaries name it. *)
Theorem account_ids_are_the_accounts (summaries accounts : list value) :
  account_ids summaries = Ok accounts ↔ Forall2 in_account summaries accounts.
Proof.
  split.
  - revert accounts. induction summaries as [|a summaries IH]; intros accounts H;
      cbn in H.
    + injection H as <-. constructor.
    + bind_inv H as account Ha. bind_inv H as rest Hrest. injection H as <-.
      constructor; [done|by apply IH].
  - induction 1 as [|a account summaries accounts Ha _ IH]; cbn; [done|].
    unfold in_account in Ha. by rewrite Ha, IH.
Qed.

(** X11: a stack set without instances is not skipped: the clean-up still
    calls [delete_stack_instances] for it, with an empty list of accounts,
    right after its first line of output. *)
Theorem empty_stack_set_is_still_deleted (w : world) (ss : string) (r : dict) :
  cf_list_stack_instances w ss = Ok r →
  r !! "Summaries" = Some (VList []) →
  ∃ rest, events (delete_stack_set_and_instances w ss)
          = Output (fstring w [Lit "delete stack set instances for "; Fmt (VStr ss);
                               Lit " stack set for the accounts "; Fmt (VList [])])
            :: DeleteStackInstances ss [] [region_name w] false :: rest.
Proof.
  intros Hr Hs. unfold delete_stack_set_and_instances, stack_instance_accounts, getitem.
  rewrite Hr. cbn [mbind result_bind]. rewrite Hs. cbn.
  destruct (cf_delete_stack_instances w ss [] [region_name w] false); cbn;
    [|by eexists].
  destruct (cf_delete_stack_set w ss); by eexists.
Qed.

(** In [untagged], no account has an instance and the service refuses the
    empty deletion, which the clean-up makes all the same. *)
Lemma empty_stack_set_is_still_deleted_witness :
  ∃ rest, events (delete_stack_set_and_instances untagged "sagemaker-iris-p-1-deploy-")
          = Output (fstring untagged
                      [Lit "delete stack set instances for ";
                       Fmt (VStr "sagemaker-iris-p-1-deploy-");
                       Lit " stack set for the accounts "; Fmt (VList [])])
            :: DeleteStackInstances "sagemaker-iris-p-1-deploy-" []
                 [region_name untagged] false :: rest.
Proof.
  refine (empty_stack_set_is_still_deleted untagged "sagemaker-iris-p-1-deploy-"
    {[ "Summaries" := VList [] ]} _ _); reflexivity.
Defined.

(** X12: the clean-up reads both environment types before it touches a
    stack set: when either is missing from [env_data] it raises the
    [KeyError] of the first one missing and makes no call and no output. *)
Theorem clean_up_missing_environment_type (w : world) (project_name : string)
    (project_id : value) (env_data : dict) :
  (env_data !! "EnvTypeStagingName" = None →
   clean_up w project_name project_id env_data
     = ([], Raise (KeyError "EnvTypeStagingName")))
  ∧ (is_Some (env_data !! "EnvTypeStagingName") →
     env_data !! "EnvTypeProdName" = None →
     clean_up w project_name project_id env_data
       = ([], Raise (KeyError "EnvTypeProdName"))).
Proof.
  unfold clean_up, getitem. split.
  - by intros ->.
  - intros [staging ->] ->. done.
Qed.

(** In [studio], a dictionary with the staging type only stops the clean-up
    before the staging stack set is touched. *)
Lemma clean_up_missing_environment_type_witness :
  clean_up studio "iris" (VStr "p-1") {[ "EnvTypeStagingName" := VStr "staging" ]}
    = ([], Raise (KeyError "EnvTypeProdName")).
Proof.
  refine (proj2 (clean_up_missing_environment_type studio "iris" (VStr "p-1")
    {[ "EnvTypeStagingName" := VStr "staging" ]}) _ _).
  - eexists. vm_compute. reflexivity.
  - vm_compute. reflexivity.
Defined.

(** X13: the clean-up of the production stack set starts only when the
    clean-up of the staging stack set has ended normally; if that one
    raises, the cell stops with its events and its exception, and the
    production stack set is left as it is. *)
Theorem clean_up_stops_at_first_failure (w : world) (project_name : string)
    (project_id : value) (env_data : dict) (staging production : value) :
  env_data !! "EnvTypeStagingName" = Some staging →
  env_data !! "EnvTypeProdName" = Some production →
  let staging_run :=
    delete_stack_set_and_instances w
      (stack_set_name w project_name project_id staging) in
  let production_run :=
    delete_stack_set_and_instances w
      (stack_set_name w project_name project_id production) in
  clean_up w project_name project_id env_data =
    match outcome staging_run with
    | Ok _ => (events staging_run ++ events production_run, outcome production_run)
    | Raise e => (events staging_run, Raise e)
    end.
Proof.
  intros Hs Hp staging_run production_run. unfold clean_up, getitem.
  rewrite Hs, Hp, !pure_bind. cbn [for_each].
  fold staging_run production_run. clearbody staging_run production_run.
  destruct staging_run as [es [[]|e]]; cbn; [|done].
  destruct production_run as [es' [[]|e']]; cbn; by rewrite ?app_nil_r.
Qed.

(** In [networked], where deleting a stack set fails, the clean-up ends
    after the staging stack set. *)
Lemma clean_up_stops_at_first_failure_witness :
  clean_up networked "iris" (VStr "p-1") studio_types
    = (events (delete_stack_set_and_instances networked
                 "sagemaker-iris-p-1-deploy-staging"),
       Raise (ClientError "OperationInProgress")).
Proof.
  refine (clean_up_stops_at_first_failure networked "iris" (VStr "p-1")
    studio_types (VStr "staging") (VStr "prod") _ _); vm_compute; reflexivity.
Defined.

(** X14: with the parameters that the notebook asks for, the dictionary of
    [get_environment] always has the two environment types, so that the
    clean-up does not stop for a missing key; a type whose parameter could
    not be read is the empty string, and the name of its stack set then
    ends with [-deploy-]. *)
Theorem clean_up_reads_loaded_environment (w : world) (project_name : string)
    (project_id : string) (env_data : dict) :
  get_environment w project_name ssm_parameters = Ok env_data →
  ∃ staging production,
    env_data !! "EnvTypeStagingName" = Some staging
    ∧ env_data !! "EnvTypeProdName" = Some production
    ∧ clean_up w project_name (VStr project_id) env_data
      = for_each [stack_set_name w project_name (VStr project_id) staging;
                  stack_set_name w project_name (VStr project_id) production]
          (delete_stack_set_and_instances w)
    ∧ (production = VStr EmptyString →
       stack_set_name w project_name (VStr project_id) production
         = "sagemaker-" +:+ project_name +:+ "-" +:+ project_id +:+ "-deploy-").
Proof.
  unfold get_environment. intros H. bind_inv H as i0 Hi0.
  destruct (load_parameters_stores w i0 env_data ssm_parameters
              {| VariableName := "EnvTypeStagingName";
                 ParameterName := "env-type-staging-name" |} H) as [staging Hs].
  { unfold ssm_parameters. do 11 apply list_elem_of_further. apply list_elem_of_here. }
  destruct (load_parameters_stores w i0 env_data ssm_parameters
              {| VariableName := "EnvTypeProdName";
                 ParameterName := "env-type-prod-name" |} H) as [production Hp].
  { unfold ssm_parameters. do 12 apply list_elem_of_further. apply list_elem_of_here. }
  cbn in Hs, Hp. exists staging, production. split; [done|]. split; [done|]. split.
  - unfold clean_up, getitem. by rewrite Hs, Hp, !pure_bind.
  - intros ->. unfold stack_set_name. by fstring_simpl.
Qed.

(** In [networked], the environment loaded with the parameters of the
    notebook lets the clean-up start. *)
Lemma clean_up_reads_loaded_environment_witness :
  ∃ staging production,
    networked_environment !! "EnvTypeStagingName" = Some staging
    ∧ networked_environment !! "EnvTypeProdName" = Some production
    ∧ clean_up networked "iris" (VStr "p-1") networked_environment
      = for_each [stack_set_name networked "iris" (VStr "p-1") staging;
                  stack_set_name networked "iris" (VStr "p-1") production]
          (delete_stack_set_and_instances networked)
    ∧ (production = VStr EmptyString →
       stack_set_name networked "iris" (VStr "p-1") production
         = "sagemaker-" +:+ "iris" +:+ "-" +:+ "p-1" +:+ "-deploy-").
Proof.
  refine (clean_up_reads_loaded_environment networked "iris" "p-1"
    networked_environment _).
  evaluates.
Defined.

(** ** Network configuration *)

(** X15: from the dictionary of [get_environment], the network
    configuration takes the security groups of the default user settings
    and the subnets of the domain, which the VPC configuration of the
    register step hands on; when neither the settings nor the domain have
    security groups, the cell raises a [KeyError]. *)
Theorem vpc_config_of_environment (w : world) (project_name : string)
    (ssm_params : list ssm_param) (r0 settings i : dict) :
  project_domain w project_name = Ok r0 →
  r0 !! "DefaultUserSettings" = Some (VDict settings) →
  get_environment w project_name ssm_params = Ok i →
  (∀ q, q ∈ ssm_params →
     VariableName q ≠ "SecurityGroups" ∧ VariableName q ≠ "SubnetIds") →
  (∀ security_groups subnet_ids,
     settings !! "SecurityGroups" = Some security_groups →
     settings !! "SubnetIds" = None →
     r0 !! "SubnetIds" = Some subnet_ids →
     ∃ nc, network_config i = Ok nc
       ∧ enable_network_isolation nc = false
       ∧ encrypt_inter_container_traffic nc = true
       ∧ vpc_config nc
         = {[ "Subnets" := subnet_ids; "SecurityGroupIds" := security_groups ]})
  ∧ (settings !! "SecurityGroups" = None →
     r0 !! "SecurityGroups" = None →
     network_config i = Raise (KeyError "SecurityGroups")).
Proof.
  intros Hr0 Hsettings Hi Hvars.
  pose proof (get_environment_lookup w project_name ssm_params r0 settings i
    "SecurityGroups" Hr0 Hsettings Hi ltac:(done) ltac:(done)
    (λ q Hq, proj1 (Hvars q Hq))) as Hsg.
  pose proof (get_environment_lookup w project_name ssm_params r0 settings i
    "SubnetIds" Hr0 Hsettings Hi ltac:(done) ltac:(done)
    (λ q Hq, proj2 (Hvars q Hq))) as Hsn.
  rewrite decide_False in Hsg by done. rewrite decide_False in Hsn by done.
  unfold network_config, getitem. split.
  - intros sg sn Hsg' Hsn' Hr. rewrite Hsg' in Hsg. rewrite Hsn' in Hsn.
    rewrite decide_False in Hsn
      by (intros Hin; repeat (apply elem_of_cons in Hin as [[=]|Hin]);
          by apply not_elem_of_nil in Hin).
    rewrite Hsg. cbn. rewrite Hsn, Hr. cbn. by eexists.
  - intros Hsg' Hr. rewrite Hsg' in Hsg.
    rewrite decide_False in Hsg
      by (intros Hin; repeat (apply elem_of_cons in Hin as [[=]|Hin]);
          by apply not_elem_of_nil in Hin).
    by rewrite Hsg, Hr.
Qed.

(** In [networked], the VPC configuration has the two subnets of the domain
    and the security group of the default user settings. *)
Lemma vpc_config_of_environment_witness :
  ∃ nc, network_config networked_environment = Ok nc
    ∧ enable_network_isolation nc = false
    ∧ encrypt_inter_container_traffic nc = true
    ∧ vpc_config nc
      = {[ "Subnets" := VList [VStr "subnet-1"; VStr "subnet-2"];
           "SecurityGroupIds" := VList [VStr "sg-1"] ]}.
Proof.
  refine (proj1 (vpc_config_of_environment networked "iris" ssm_parameters
    networked_domain
    {[ "ExecutionRole" := VStr "arn:role";
       "SecurityGroups" := VList [VStr "sg-1"] ]}
    networked_environment _ _ _ _) _ _ _ _ _).
  - evaluates.
  - vm_compute. reflexivity.
  - evaluates.
  - intros q Hq. unfold ssm_parameters in Hq.
    repeat (apply elem_of_cons in Hq as [->|Hq]); [by split..|].
    by apply not_elem_of_nil in Hq.
  - vm_compute. reflexivity.
  - vm_compute. reflexivity.
  - vm_compute. reflexivity.
Defined.

(** ** Resource names *)

Lemma length_append (s1 s2 : string) :
  String.length (s1 +:+ s2) = String.length s1 + String.length s2.
Proof.
  induction s1 as [|c s1 IH]; [done|].
  change (S (String.length (s1 +:+ s2)) = S (String.length s1 + String.length s2)).
  by rewrite IH.
Qed.

(** X16: when the session cell ends normally and the project id is a
    string, the assertion has bounded the names that are templated from the
    project name: the model package group name by 16 characters more than
    the id, the pipeline name by 29 more and the name of the deployment
    pipeline by 38 more. *)
Theorem asserted_length_bounds_names (w : world) (project_name project_id : string)
    (names : project_names) :
  outcome (name_project_resources w project_name) = Ok names →
  names_project_id names = VStr project_id →
  (String.length (names_model_package_group_name names)
     ≤ 16 + String.length project_id)%nat
  ∧ (String.length (pipeline_name w (names_prefix names))
     ≤ 29 + String.length project_id)%nat
  ∧ (String.length (code_pipeline_name w project_name (names_project_id names))
     ≤ 38 + String.length project_id)%nat.
Proof.
  unfold name_project_resources, outcome.
  destruct (sm_describe_project w project_name ≫= λ p, getitem p "ProjectId")
    as [pid|e]; cbn; [|done].
  destruct (Nat.leb (String.length project_name) 15) eqn:Hlen; cbn; [|done].
  apply Nat.leb_le in Hlen. intros [= <-]. cbn. intros ->.
  unfold model_package_group_name, pipeline_name, prefix, code_pipeline_name.
  fstring_simpl. rewrite !length_append. cbn. lia.
Qed.

(** In [studio], the names of the project [iris] are within the bounds. *)
Lemma asserted_length_bounds_names_witness :
  (String.length "iris-p-1" ≤ 16 + String.length "p-1")%nat
  ∧ (String.length (pipeline_name studio "iris-p-1") ≤ 29 + String.length "p-1")%nat
  ∧ (String.length (code_pipeline_name studio "iris" (VStr "p-1"))
     ≤ 38 + String.length "p-1")%nat.
Proof.
  refine (asserted_length_bounds_names studio "iris" "p-1"
    {| names_project_id := VStr "p-1";
       names_model_package_group_name := "iris-p-1";
       names_prefix := "iris-p-1" |} _ _); reflexivity.
Defined.

(** ** The environment cell *)

Lemma serializable_dict (d : dict) :
  serializable (VDict d) ↔ serializable_members d.
Proof.
  unfold serializable, serializable_members. cbn [has_datetime].
  induction d as [|k v d Hk Hfold IH] using map_first_key_ind.
  - rewrite map_fold_empty. split; [|done]. intros _ k v. by rewrite lookup_empty.
  - rewrite map_fold_insert_first_key by done.
    rewrite orb_false_iff, IH. split.
    + intros [Hv Hd] k' v'. rewrite lookup_insert.
      case_decide; [by intros [= <-]|eauto].
    + intros H. split.
      * apply (H k). by rewrite lookup_insert_eq.
      * intros k' v' Hk'. apply (H k'). rewrite lookup_insert_ne; [done|].
        intros ->. congruence.
Qed.

Lemma serializable_list (l : list value) :
  serializable (VList l) ↔ Forall serializable l.
Proof.
  unfold serializable. cbn [has_datetime]. induction l as [|x l IH]; cbn.
  - split; [constructor|done].
  - rewrite orb_false_iff, IH, Forall_cons. done.
Qed.

Lemma serializable_chars (s : string) : Forall serializable (chars s).
Proof. induction s; cbn; by constructor. Qed.

Lemma serializable_iterate (v : value) (l : list value) :
  serializable v → iterate v = Ok l → Forall serializable l.
Proof.
  destruct v; cbn; try done; intros Hv [= <-].
  - apply serializable_chars.
  - by apply serializable_list.
  - apply Forall_fmap, Forall_true. done.
Qed.

Lemma serializable_subscript (v x : value) (k : string) :
  serializable v → subscript v k = Ok x → serializable x.
Proof.
  intros Hv (d & -> & Hd)%subscript_Ok. by eapply serializable_dict.
Qed.

Lemma serializable_insert (d : dict) (k : string) (v : value) :
  serializable_members d → serializable v → serializable_members (<[k := v]> d).
Proof.
  intros Hd Hv k' v'. rewrite lookup_insert. case_decide; [by intros [= <-]|apply Hd].
Qed.

Lemma serializable_tags_dict (tags : list value) (acc t : dict) :
  Forall serializable tags → serializable_members acc →
  tags_dict tags acc = Ok t → serializable_members t.
Proof.
  intros Htags. revert acc. induction Htags as [|x tags Hx _ IH]; intros acc Hacc H;
    cbn [tags_dict] in H.
  - by injection H as <-.
  - bind_inv H as key Hkey.
    destruct (in_strs key ["EnvironmentName"; "EnvironmentType"]); [|by eapply IH].
    bind_inv H as k Hk. bind_inv H as v Hv.
    apply (IH _ (serializable_insert _ _ _ Hacc (serializable_subscript _ _ _ Hx Hv)) H).
Qed.

Lemma serializable_load_parameters (w : world) (i i' : dict)
    (ssm_params : list ssm_param) :
  (∀ name response, ssm_get_parameter w name = Ok response →
     serializable (VDict response)) →
  serializable_members i →
  load_parameters w i ssm_params = Ok i' → serializable_members i'.
Proof.
  intros Hstore. revert i. induction ssm_params as [|p ps IH]; intros i Hi H; cbn in H.
  - by injection H as <-.
  - rewrite load_parameter_Ok in H. cbn in H. refine (IH _ _ H); clear H.
    apply serializable_insert; [done|].
    destruct (fetch_parameter w i p) as [v|e] eqn:Hfetch; [|done].
    unfold fetch_parameter in Hfetch. bind_inv Hfetch as en Hen. bind_inv Hfetch as et Het.
    unfold parameter_value in Hfetch. bind_inv Hfetch as response Hresponse.
    bind_inv Hfetch as parameter Hparameter. apply getitem_Ok in Hparameter.
    eapply serializable_subscript; [|done].
    by eapply serializable_dict; [apply (Hstore _ _ Hresponse)|].
Qed.

(** No [datetime] is left in the dictionary of [get_environment] when the
    description of the domain has none once the three members are deleted
    and neither the tags nor the parameters have one. *)
Lemma serializable_get_environment (w : world) (project_name : string)
    (ssm_params : list ssm_param) (r0 i : dict) :
  project_domain w project_name = Ok r0 →
  serializable (VDict (without_deleted r0)) →
  (∀ arn response, sm_list_tags w arn = Ok response → serializable (VDict response)) →
  (∀ name response, ssm_get_parameter w name = Ok response →
     serializable (VDict response)) →
  get_environment w project_name ssm_params = Ok i →
  serializable (VDict i).
Proof.
  intros Hr0 Hdomain%serializable_dict Htags Hstore H. apply serializable_dict.
  unfold without_deleted in Hdomain.
  unfold get_environment in H. bind_inv H as i0 Hi0.
  apply (serializable_load_parameters _ _ _ _ Hstore) in H; [done|].
  apply domain_environment_Ok in Hi0 as (r & tags & Hr & Htagsd & ->).
  apply flattened_domain_Ok in Hr as (r0' & settings & Hr0' & Hsettings & ->).
  rewrite Hr0 in Hr0'. injection Hr0' as <-.
  assert (serializable_members settings) as Hset.
  { apply serializable_dict, (Hdomain "DefaultUserSettings").
    by rewrite !lookup_delete_ne. }
  unfold environment_tags in Htagsd. bind_inv Htagsd as arn Harn.
  bind_inv Htagsd as response Hresponse. bind_inv Htagsd as l Hl.
  bind_inv Hl as tv Htv. apply getitem_Ok in Htv.
  assert (serializable_members tags) as Htagsm.
  { eapply serializable_tags_dict; [|by intros ??; rewrite lookup_empty|done].
    eapply serializable_iterate; [|done].
    by eapply serializable_dict; [apply (Htags _ _ Hresponse)|]. }
  intros k v [Hk|[_ Hk]]%lookup_union_Some_raw; [by eapply Htagsm|].
  apply lookup_delete_Some in Hk as [_ Hk].
  apply lookup_union_Some_raw in Hk as [Hk|[_ Hk]]; [by eapply Hset|].
  by eapply Hdomain.
Qed.

(** X17: the environment cell prints the dictionary of [get_environment]
    and returns it, unless the dictionary holds a [datetime], in which case
    the cell raises a [TypeError] and prints nothing; the dictionary holds
    none when the description of the domain has none outside the three
    members that [get_environment] deletes first and the tags and the
    parameters have none. *)
Theorem environment_is_printed (w : world) (json_text : value → string)
    (project_name : string) (r0 i : dict) :
  get_environment w project_name ssm_parameters = Ok i →
  load_environment w json_text project_name
    = (if has_datetime (VDict i) then ([], Raise TypeError)
       else ([Output ("Environment data:" +:+ newline +:+ json_text (VDict i))],
             Ok i))
  ∧ (project_domain w project_name = Ok r0 →
     has_datetime (VDict (without_deleted r0)) = false →
     (∀ arn response, sm_list_tags w arn = Ok response →
        serializable (VDict response)) →
     (∀ name response, ssm_get_parameter w name = Ok response →
        serializable (VDict response)) →
     has_datetime (VDict i) = false).
Proof.
  intros Hi. split.
  - unfold load_environment, json_dumps. rewrite Hi, pure_bind.
    destruct (has_datetime (VDict i)); [done|].
    rewrite pure_bind. cbn. by fstring_simpl.
  - intros Hr0 Hdomain Htags Hstore.
    by eapply (serializable_get_environment w project_name ssm_parameters r0 i).
Qed.

(** In [networked], the environment has no [datetime] and is printed. *)
Lemma environment_is_printed_witness :
  load_environment networked (λ _, "{}") "iris"
    = ([Output ("Environment data:" +:+ newline +:+ "{}")], Ok networked_environment)
  ∧ has_datetime (VDict networked_environment) = false.
Proof.
  destruct (environment_is_printed networked (λ _, "{}") "iris"
    networked_domain networked_environment) as [Hprinted Hserializable];
    [evaluates|].
  assert (has_datetime (VDict networked_environment) = false) as Hnone.
  { apply Hserializable.
    - evaluates.
    - vm_compute. reflexivity.
    - intros arn response [= <-]. vm_compute. reflexivity.
    - intros name response. cbn -[String.eqb].
      repeat match goal with
             | |- context [if String.eqb ?a ?b then _ else _] =>
                 destruct (String.eqb a b); [intros [= <-]; vm_compute; reflexivity|]
             end.
      done. }
  split; [|done]. by rewrite Hprinted, Hnone.
Defined.

(** ** Tags of the pipeline *)

(** X18: the tags that the pipeline cell makes for the pipeline carry the
    environment of [env_data]: read back with the comprehension that
    [get_environment] applies to the tags of a domain, they give the
    [EnvironmentName] and the [EnvironmentType] of [env_data] and nothing
    else.  When [env_data] has no [EnvironmentName], making the tags raises
    a [KeyError]. *)
Theorem pipeline_tags_carry_environment (project_name : string)
    (project_id : value) (env_data : dict) :
  (∀ environment_name environment_type,
     env_data !! "EnvironmentName" = Some environment_name →
     env_data !! "EnvironmentType" = Some environment_type →
     pipeline_tags project_name project_id env_data ≫= (λ tags, tags_dict tags ∅)
       = Ok {[ "EnvironmentName" := environment_name;
               "EnvironmentType" := environment_type ]})
  ∧ (env_data !! "EnvironmentName" = None →
     pipeline_tags project_name project_id env_data
       = Raise (KeyError "EnvironmentName")).
Proof.
  unfold pipeline_tags, getitem. split.
  - intros en et -> ->. vm_compute. reflexivity.
  - by intros ->.
Qed.

(** For the environment of [studio], the tags give back [sm] and [dev]. *)
Lemma pipeline_tags_carry_environment_witness :
  pipeline_tags "iris" (VStr "p-1") studio_environment ≫= (λ tags, tags_dict tags ∅)
    = Ok {[ "EnvironmentName" := VStr "sm"; "EnvironmentType" := VStr "dev" ]}.
Proof.
  refine (proj1 (pipeline_tags_carry_environment "iris" (VStr "p-1")
    studio_environment) (VStr "sm") (VStr "dev") _ _); vm_compute; reflexivity.
Defined.
